(** * ProgressBlock: a circular progress indicator drawn on a canvas

    A shallow embedding of [progress.js] (class [ProgressBlock]) together with
    the small part of the browser it talks to: the canvas element and its 2D
    context, [window.innerWidth], the resize listener and the queue of
    [requestAnimationFrame] callbacks.

    Numbers.  A JavaScript number is modelled by an exact rational ([Q]):
    every finite double is a rational, and [+], [*], [/], [Math.min] and
    [Math.max] are taken without rounding, so an equation such as
    [rotation w' = rotation w + 0.02] names the operation the code performs,
    not its rounded result.  [NaN] and the infinities have no counterpart in
    [Q].  Module [Double] has the arithmetic of the class once more on
    binary64 numbers, to compute where the code and exact arithmetic part.

    Effects.  Methods mutate [this.settings] and the page and may throw, so
    they are computations in a state-and-exception monad over [World]; what a
    method wrote before it threw stays written, as in JavaScript. *)

From Stdlib Require Import QArith Qminmax Qround Lqa ZArith NArith List String Bool Lia.
From Stdlib Require PrimFloat.
Import ListNotations.
Open Scope Q_scope.

(** ** JavaScript values used by the class *)

Module JS.

(** [Math.min] and [Math.max] on two numbers. *)
Definition Math_min (a b : Q) : Q := Qmin a b.
Definition Math_max (a b : Q) : Q := Qmax a b.

(** [Math.PI]: the double nearest to pi, 884279719003555 / 2^48. *)
Definition Math_PI : Q := 884279719003555 # 281474976710656.

(** [a < b] on numbers. *)
Definition lt (a b : Q) : bool := negb (Qle_bool b a).

(** What a property that holds an object reference can contain. *)
Inductive Slot : Type := undefined | null | object.

Inductive Error : Type := TypeError.

(** How a call ends: it returns, or it throws. *)
Inductive Completion (A : Type) : Type :=
| Normal (a : A)
| Throw (e : Error).
Arguments Normal {A} a.
Arguments Throw {A} e.

(** Truthiness of [settings.animationFrame], which is [null] or a number:
    [null] and [0] are falsy. *)
Definition truthy (af : option N) : bool :=
  match af with
  | Some h => negb (N.eqb h 0)
  | None => false
  end.

End JS.
Export JS.

(** ** The 2D drawing context *)

Module Canvas2D.

(** One [arc(x, y, radius, startAngle, endAngle)] segment of a path.  The
    optional sixth argument is never passed, so [counterclockwise] is always
    its default [false]: arcs run clockwise. *)
Record Arc : Type := mkArc {
  arc_x : Q;
  arc_y : Q;
  arc_radius : Q;
  arc_startAngle : Q;
  arc_endAngle : Q;
  arc_counterclockwise : bool
}.

(** What has been put on the bitmap, oldest first. *)
Inductive Paint : Type :=
| Cleared (x y w h : Q)
| Stroked (style : string) (width : Q) (path : list Arc).

Record Context2D : Type := mkContext2D {
  strokeStyle : string;
  lineWidth : Q;
  path : list Arc;
  painted : list Paint
}.

Definition fresh : Context2D :=
  {| strokeStyle := "#000000"; lineWidth := 1; path := []; painted := [] |}.

Definition clearRect (x y w h : Q) (c : Context2D) : Context2D :=
  {| strokeStyle := strokeStyle c; lineWidth := lineWidth c; path := path c;
     painted := painted c ++ [Cleared x y w h] |}.

Definition beginPath (c : Context2D) : Context2D :=
  {| strokeStyle := strokeStyle c; lineWidth := lineWidth c; path := [];
     painted := painted c |}.

Definition set_strokeStyle (s : string) (c : Context2D) : Context2D :=
  {| strokeStyle := s; lineWidth := lineWidth c; path := path c;
     painted := painted c |}.

Definition set_lineWidth (n : Q) (c : Context2D) : Context2D :=
  {| strokeStyle := strokeStyle c; lineWidth := n; path := path c;
     painted := painted c |}.

Definition arc (x y radius startAngle endAngle : Q) (c : Context2D) : Context2D :=
  {| strokeStyle := strokeStyle c; lineWidth := lineWidth c;
     path := path c ++ [mkArc x y radius startAngle endAngle false];
     painted := painted c |}.

Definition stroke (c : Context2D) : Context2D :=
  {| strokeStyle := strokeStyle c; lineWidth := lineWidth c; path := path c;
     painted := painted c ++ [Stroked (strokeStyle c) (lineWidth c) (path c)] |}.

End Canvas2D.
Export Canvas2D.

(** ** The arithmetic of the class on binary64 numbers *)

Module Double.
Import PrimFloat.
Local Open Scope float_scope.

Definition Math_PI : float := 0x1.921fb54442d18p+1.

(** [Math.max] and [Math.min] on two numbers: [NaN] when an argument is, and
    of the two zeros [+0] is the larger. *)
Definition Math_max (a b : float) : float :=
  if is_nan a || is_nan b then nan
  else if a <? b then b
  else if b <? a then a
  else if is_zero a && get_sign a then b else a.

Definition Math_min (a b : float) : float :=
  if is_nan a || is_nan b then nan
  else if a <? b then a
  else if b <? a then b
  else if is_zero a && negb (get_sign a) then b else a.

(** [Math.min(100, Math.max(0, value))], what [setValue] stores. *)
Definition clamp (value : float) : float := Math_min 100 (Math_max 0 value).


(** The two angles [draw] passes to [arc] for the progress arc. *)
Definition startAngle (rotation : float) : float := - Math_PI / 2 + rotation.

Definition endAngle (rotation value : float) : float :=
  startAngle rotation + (value / 100) * (2 * Math_PI).





End Double.

(** ** The page and the widget *)

(** A canvas element: the properties the class reads or writes, and the 2D
    context the widget paints through, which is the element's own unless the
    constructor is given another one as [options.ctx]. *)
Record CanvasElement : Type := mkCanvas {
  width : Q;
  height : Q;
  visibility : string;        (* style.visibility *)
  parentNode : bool;          (* [true]: attached to a parent *)
  context : Context2D         (* what getContext('2d') returns *)
}.

(** What a canvas element keeps of a number assigned to [width] or [height]:
    the attribute is an unsigned long, so the fraction is dropped.  The
    numbers assigned by the class come from [window.innerWidth], which is
    never negative; of a negative number the model keeps 0. *)
Definition to_unsigned_long (q : Q) : Q := inject_Z (Z.max 0 (Qfloor q)).

(** [this.settings].  [settings.canvas] is never reassigned after the
    constructor and always refers to the canvas element of the world, so it
    has no field here. *)
Record Settings : Type := mkSettings {
  ctx : Slot;
  value : Q;
  animate : bool;
  hidden : bool;
  rotation : Q;
  animationFrame : option N
}.

(** The widget and the page around it.  [frames] are the handles of the
    animation-frame callbacks of this widget that are scheduled and not yet
    run or cancelled; every one of them is the closure [animate] of
    [startAnimation].  [renders] is history, not program state: the argument
    of every call of [draw], oldest first. *)
Record World : Type := mkWorld {
  innerWidth : Q;
  canvas : CanvasElement;
  valueInput : option Q;      (* the element with id 'value', if any *)
  resizeListener : bool;      (* [handleResize] is registered on window *)
  frames : list N;
  nextFrame : N;              (* the handle the next request returns *)
  settings : Settings;
  this_canvas : Slot;         (* the property [this.canvas] *)
  renders : list Q
}.

(** The page before a widget exists. *)
Record Page : Type := mkPage {
  page_innerWidth : Q;
  page_canvasId : string;
  page_canvas : CanvasElement;
  page_valueInput : option Q;
  page_nextFrame : N
}.

(** The [options] argument of the constructor; [None] is an absent key.
    [o_canvas] is another canvas element to use; [o_ctx] is [Some None] for a
    key that holds [null] and [Some (Some c)] for a 2D context in state
    [c]. *)
Record Options : Type := mkOptions {
  o_canvas : option CanvasElement;
  o_ctx : option (option Context2D);
  o_value : option Q;
  o_animate : option bool;
  o_hidden : option bool;
  o_rotation : option Q;
  o_animationFrame : option (option N)
}.

Definition no_options : Options :=
  {| o_canvas := None; o_ctx := None;
     o_value := None; o_animate := None; o_hidden := None;
     o_rotation := None; o_animationFrame := None |}.

(** *** Field updates *)

Definition set_settings (f : Settings -> Settings) (w : World) : World :=
  {| innerWidth := innerWidth w; canvas := canvas w; valueInput := valueInput w;
     resizeListener := resizeListener w; frames := frames w;
     nextFrame := nextFrame w; settings := f (settings w);
     this_canvas := this_canvas w; renders := renders w |}.

Definition set_canvas (f : CanvasElement -> CanvasElement) (w : World) : World :=
  {| innerWidth := innerWidth w; canvas := f (canvas w); valueInput := valueInput w;
     resizeListener := resizeListener w; frames := frames w;
     nextFrame := nextFrame w; settings := settings w;
     this_canvas := this_canvas w; renders := renders w |}.

Definition set_frames (f : list N -> list N) (w : World) : World :=
  {| innerWidth := innerWidth w; canvas := canvas w; valueInput := valueInput w;
     resizeListener := resizeListener w; frames := f (frames w);
     nextFrame := nextFrame w; settings := settings w;
     this_canvas := this_canvas w; renders := renders w |}.

Definition set_nextFrame (n : N) (w : World) : World :=
  {| innerWidth := innerWidth w; canvas := canvas w; valueInput := valueInput w;
     resizeListener := resizeListener w; frames := frames w;
     nextFrame := n; settings := settings w;
     this_canvas := this_canvas w; renders := renders w |}.

Definition set_resizeListener (b : bool) (w : World) : World :=
  {| innerWidth := innerWidth w; canvas := canvas w; valueInput := valueInput w;
     resizeListener := b; frames := frames w;
     nextFrame := nextFrame w; settings := settings w;
     this_canvas := this_canvas w; renders := renders w |}.

Definition set_innerWidth (q : Q) (w : World) : World :=
  {| innerWidth := q; canvas := canvas w; valueInput := valueInput w;
     resizeListener := resizeListener w; frames := frames w;
     nextFrame := nextFrame w; settings := settings w;
     this_canvas := this_canvas w; renders := renders w |}.

Definition set_valueInput (v : option Q) (w : World) : World :=
  {| innerWidth := innerWidth w; canvas := canvas w; valueInput := v;
     resizeListener := resizeListener w; frames := frames w;
     nextFrame := nextFrame w; settings := settings w;
     this_canvas := this_canvas w; renders := renders w |}.

Definition set_this_canvas (s : Slot) (w : World) : World :=
  {| innerWidth := innerWidth w; canvas := canvas w; valueInput := valueInput w;
     resizeListener := resizeListener w; frames := frames w;
     nextFrame := nextFrame w; settings := settings w;
     this_canvas := s; renders := renders w |}.

(** Records one more call of [draw] in the history. *)
Definition log_render (r : Q) (w : World) : World :=
  {| innerWidth := innerWidth w; canvas := canvas w; valueInput := valueInput w;
     resizeListener := resizeListener w; frames := frames w;
     nextFrame := nextFrame w; settings := settings w;
     this_canvas := this_canvas w; renders := renders w ++ [r] |}.

Definition set_ctx (s : Slot) (st : Settings) : Settings :=
  {| ctx := s; value := value st; animate := animate st; hidden := hidden st;
     rotation := rotation st; animationFrame := animationFrame st |}.

Definition set_value (v : Q) (st : Settings) : Settings :=
  {| ctx := ctx st; value := v; animate := animate st; hidden := hidden st;
     rotation := rotation st; animationFrame := animationFrame st |}.

Definition set_animate (b : bool) (st : Settings) : Settings :=
  {| ctx := ctx st; value := value st; animate := b; hidden := hidden st;
     rotation := rotation st; animationFrame := animationFrame st |}.

Definition set_hidden (b : bool) (st : Settings) : Settings :=
  {| ctx := ctx st; value := value st; animate := animate st; hidden := b;
     rotation := rotation st; animationFrame := animationFrame st |}.

Definition set_rotation (r : Q) (st : Settings) : Settings :=
  {| ctx := ctx st; value := value st; animate := animate st; hidden := hidden st;
     rotation := r; animationFrame := animationFrame st |}.

Definition set_animationFrame (h : option N) (st : Settings) : Settings :=
  {| ctx := ctx st; value := value st; animate := animate st; hidden := hidden st;
     rotation := rotation st; animationFrame := h |}.

(** [canvas.width = q] and [canvas.height = q]. *)
Definition set_width (q : Q) (c : CanvasElement) : CanvasElement :=
  {| width := to_unsigned_long q; height := height c; visibility := visibility c;
     parentNode := parentNode c; context := context c |}.

Definition set_height (q : Q) (c : CanvasElement) : CanvasElement :=
  {| width := width c; height := to_unsigned_long q; visibility := visibility c;
     parentNode := parentNode c; context := context c |}.

Definition set_visibility (s : string) (c : CanvasElement) : CanvasElement :=
  {| width := width c; height := height c; visibility := s;
     parentNode := parentNode c; context := context c |}.

Definition set_parentNode (b : bool) (c : CanvasElement) : CanvasElement :=
  {| width := width c; height := height c; visibility := visibility c;
     parentNode := b; context := context c |}.

Definition set_context (f : Context2D -> Context2D) (c : CanvasElement) : CanvasElement :=
  {| width := width c; height := height c; visibility := visibility c;
     parentNode := parentNode c; context := f (context c) |}.

(** ** The monad of method bodies *)

Definition M (A : Type) : Type := World -> Completion A * World.

Definition ret {A : Type} (a : A) : M A := fun w => (Normal a, w).

Definition bind {A B : Type} (m : M A) (k : A -> M B) : M B :=
  fun w =>
    match m w with
    | (Normal a, w') => k a w'
    | (Throw e, w') => (Throw e, w')
    end.

Definition gets {A : Type} (f : World -> A) : M A := fun w => (Normal (f w), w).

Definition modify (f : World -> World) : M unit := fun w => (Normal tt, f w).

Declare Scope js_scope.
Delimit Scope js_scope with js.
Notation "x <- m ;; k" := (bind m (fun x => k))
  (at level 61, m at next level, right associativity) : js_scope.
Notation "m ;; k" := (bind m (fun _ => k))
  (at level 61, right associativity) : js_scope.
Open Scope js_scope.

(** A method call or property write on [this.settings.ctx]: a [TypeError]
    when the property no longer holds the context. *)
Definition on_ctx (f : Context2D -> Context2D) : M unit :=
  fun w =>
    match ctx (settings w) with
    | object => (Normal tt, set_canvas (set_context f) w)
    | _ => (Throw TypeError, w)
    end.

(** [requestAnimationFrame(animate)]: queues the callback, returns its handle. *)
Definition requestAnimationFrame : M N :=
  fun w =>
    let h := nextFrame w in
    (Normal h, set_nextFrame (h + 1)%N (set_frames (fun l => l ++ [h]) w)).

(** Takes the handle [h] out of the queue of scheduled frames. *)
Definition unschedule (h : N) : World -> World :=
  set_frames (filter (fun k => negb (N.eqb k h))).

(** [cancelAnimationFrame(h)]: no effect when [h] is not scheduled. *)
Definition cancelAnimationFrame (h : N) : M unit := modify (unschedule h).

(** ** class ProgressBlock *)

Module ProgressBlock.

(** Reads [this.settings.value]. *)
Definition settings_value : M Q := gets (fun w => value (settings w)).

(** [draw(rotation = 0)].  The first line only records the call. *)
Definition draw (rotation : Q) : M unit :=
  modify (log_render rotation) ;;
  h <- gets (fun w => hidden (settings w)) ;;
  if h then ret tt else
  width <- gets (fun w => width (canvas w)) ;;
  height <- gets (fun w => height (canvas w)) ;;
  let centerX := width / 2 in
  let centerY := height / 2 in
  let radius := Math_min width height / 2.5 - 10 in
  on_ctx (clearRect 0 0 width height) ;;
  on_ctx beginPath ;;
  on_ctx (set_strokeStyle "#E5E7EB") ;;
  on_ctx (set_lineWidth 10) ;;
  on_ctx (arc centerX centerY radius 0 (2 * Math_PI)) ;;
  on_ctx stroke ;;
  on_ctx beginPath ;;
  on_ctx (set_strokeStyle "blue") ;;
  on_ctx (set_lineWidth 10) ;;
  let startAngle := - Math_PI / 2 + rotation in
  v <- settings_value ;;
  let endAngle := startAngle + (v / 100) * (2 * Math_PI) in
  on_ctx (arc centerX centerY radius startAngle endAngle) ;;
  on_ctx stroke.

Definition setCanvasSize : M unit :=
  iw <- gets innerWidth ;;
  let size := Math_min (iw * 0.8) 200 in
  modify (set_canvas (set_width size)) ;;
  modify (set_canvas (set_height size)) ;;
  draw 0.

Definition setValue (value : Q) : M unit :=
  modify (set_settings (set_value (Math_min 100 (Math_max 0 value)))) ;;
  draw 0.

Definition setHidden (hidden : bool) : M unit :=
  modify (set_settings (set_hidden hidden)) ;;
  modify (set_canvas (set_visibility (if hidden then "hidden" else "visible"))).

(** The closure [animate] of [startAnimation]: one tick of the loop. *)
Definition animate_tick : M unit :=
  modify (set_settings (fun st => set_rotation (rotation st + 0.02) st)) ;;
  r <- gets (fun w => rotation (settings w)) ;;
  draw r ;;
  h <- requestAnimationFrame ;;
  modify (set_settings (set_animationFrame (Some h))).

Definition startAnimation : M unit := animate_tick.

Definition stopAnimation : M unit :=
  af <- gets (fun w => animationFrame (settings w)) ;;
  (if truthy af
   then match af with
        | Some h => cancelAnimationFrame h
        | None => ret tt
        end
   else ret tt) ;;
  modify (set_settings (set_rotation 0)) ;;
  draw 0.

Definition setAnimate (animate : bool) : M unit :=
  modify (set_settings (set_animate animate)) ;;
  if animate then startAnimation else stopAnimation.

(** [incrementProgress(value)].  The argument of [setValue] is the
    assignment [this.settings.value = value], which stores [value] first. *)
Definition incrementProgress (value : Q) : M unit :=
  cur <- settings_value ;;
  if JS.lt cur 100 then
    modify (set_settings (set_value value)) ;;
    setValue value ;;
    input <- gets valueInput ;;
    match input with
    | Some _ =>
        v <- settings_value ;;
        modify (set_valueInput (Some v))
    | None => ret tt
    end
  else ret tt.

Definition destroy : M unit :=
  stopAnimation ;;
  modify (set_resizeListener false) ;;
  width <- gets (fun w => width (canvas w)) ;;
  height <- gets (fun w => height (canvas w)) ;;
  on_ctx (clearRect 0 0 width height) ;;
  attached <- gets (fun w => parentNode (canvas w)) ;;
  (if attached then modify (set_canvas (set_parentNode false)) else ret tt) ;;
  modify (set_this_canvas null) ;;
  modify (set_settings (set_ctx null)).

(** [document.getElementById]: the page holds one canvas element. *)
Definition getElementById (id : string) (p : Page) : option CanvasElement :=
  if String.eqb id (page_canvasId p) then Some (page_canvas p) else None.

(** [{ ...defaults, ...options }]: a key of [options] wins when present. *)
Definition merge {A : Type} (default : A) (override : option A) : A :=
  match override with
  | Some a => a
  | None => default
  end.

(** [new ProgressBlock(canvasId, options)].  Building [defaults] calls
    [getContext] on the result of the lookup, a [TypeError] when there is
    no such element, whatever [options] holds.  [settings.canvas] is the
    element of [options.canvas] when that key is present and the element
    found otherwise; [settings.ctx] is [options.ctx] when that key is present
    and the context of the element found otherwise. *)
Definition constructor (canvasId : string) (options : Options) (p : Page)
  : Completion World :=
  match getElementById canvasId p with
  | None => Throw TypeError
  | Some el =>
      let painted_through :=
        match o_ctx options with
        | Some (Some c) => c
        | _ => context el
        end in
      let st :=
        {| ctx := match o_ctx options with
                  | Some None => null
                  | _ => object
                  end;
           value := merge 0 (o_value options);
           animate := merge false (o_animate options);
           hidden := merge false (o_hidden options);
           rotation := merge 0 (o_rotation options);
           animationFrame := merge None (o_animationFrame options) |} in
      let w :=
        {| innerWidth := page_innerWidth p;
           canvas := set_context (fun _ => painted_through)
                                 (merge el (o_canvas options));
           valueInput := page_valueInput p; resizeListener := false;
           frames := []; nextFrame := page_nextFrame p;
           settings := st; this_canvas := undefined; renders := [] |} in
      match setCanvasSize w with
      | (Normal _, w') => Normal (set_resizeListener true w')
      | (Throw e, _) => Throw e
      end
  end.

End ProgressBlock.
Export ProgressBlock.

(** ** The event loop *)

(** What can happen to a constructed widget: a method call from the page's
    script, a scheduled animation frame coming due, or the viewport changing
    width.  An exception that escapes a call ends that call only.  The
    numbers passed are finite: a call with [NaN] is not among these. *)
Inductive Call : Type :=
| call_setValue (v : Q)
| call_setAnimate (b : bool)
| call_setHidden (b : bool)
| call_setCanvasSize
| call_incrementProgress (v : Q)
| call_destroy
| frame_due (h : N)
| window_resize (newWidth : Q).

(** The browser runs the callback scheduled under [h], if it is still
    scheduled; the handle leaves the queue before the callback runs. *)
Definition run_frame (h : N) : M unit :=
  scheduled <- gets (fun w => existsb (N.eqb h) (frames w)) ;;
  if scheduled then
    modify (unschedule h) ;;
    animate_tick
  else ret tt.

(** The viewport takes a new width and the resize event is dispatched. *)
Definition resize (newWidth : Q) : M unit :=
  modify (set_innerWidth newWidth) ;;
  listening <- gets resizeListener ;;
  if listening then setCanvasSize else ret tt.

Definition perform (c : Call) : M unit :=
  match c with
  | call_setValue v => setValue v
  | call_setAnimate b => setAnimate b
  | call_setHidden b => setHidden b
  | call_setCanvasSize => setCanvasSize
  | call_incrementProgress v => incrementProgress v
  | call_destroy => destroy
  | frame_due h => run_frame h
  | window_resize q => resize q
  end.

Definition step (c : Call) (w : World) : World := snd (perform c w).

Definition run (cs : list Call) (w : World) : World := fold_left (fun w c => step c w) cs w.

(** A page with a 300x150 canvas (the default size of the element) under id
    'progress', nothing scheduled. *)
Definition blank_canvas : CanvasElement :=
  {| width := 300; height := 150; visibility := EmptyString; parentNode := true;
     context := fresh |}.

Definition page (viewportWidth : Q) : Page :=
  {| page_innerWidth := viewportWidth; page_canvasId := "progress";
     page_canvas := blank_canvas; page_valueInput := Some 0;
     page_nextFrame := 1%N |}.

(** The states a widget built by [constructor] can be in. *)
Inductive Reachable (canvasId : string) (options : Options) (p : Page) : World -> Prop :=
| reach_new : forall w,
    constructor canvasId options p = Normal w -> Reachable canvasId options p w
| reach_step : forall w c,
    Reachable canvasId options p w -> Reachable canvasId options p (step c w).

(** ** What [draw] paints *)

(** The two strokes of one rendering of the gauge, after the clear: the full
    gray ring, then the progress arc. *)
Definition radius_of (w h : Q) : Q := Math_min w h / 2.5 - 10.

Definition ring (w h : Q) : Arc :=
  mkArc (w / 2) (h / 2) (radius_of w h) 0 (2 * Math_PI) false.

Definition progress_arc (w h v rotation : Q) : Arc :=
  mkArc (w / 2) (h / 2) (radius_of w h)
        (- Math_PI / 2 + rotation)
        (- Math_PI / 2 + rotation + (v / 100) * (2 * Math_PI)) false.

Definition gauge (w h v rotation : Q) : list Paint :=
  [ Cleared 0 0 w h;
    Stroked "#E5E7EB" 10 [ring w h];
    Stroked "blue" 10 [progress_arc w h v rotation] ].

(** The context after one rendering. *)
Definition rendered (w h v rotation : Q) (c : Context2D) : Context2D :=
  {| strokeStyle := "blue"; lineWidth := 10;
     path := [progress_arc w h v rotation];
     painted := painted c ++ gauge w h v rotation |}.

Definition in_range (v : Q) : Prop := 0 <= v <= 100.

(** A number is an integer when its denominator divides its numerator. *)
Definition is_integer (q : Q) : bool := (Qnum q mod QDen q =? 0)%Z.


(** The call starts the loop while a frame is still scheduled. *)
Definition restarts (c : Call) (w : World) : bool :=
  match c, frames w with
  | call_setAnimate true, _ :: _ => true
  | _, _ => false
  end.

(** No call of the sequence restarts a running loop. *)
Fixpoint guarded (cs : list Call) (w : World) : bool :=
  match cs with
  | [] => true
  | c :: cs' => negb (restarts c w) && guarded cs' (step c w)
  end.

(** At most one loop: nothing is scheduled, or one frame is and the widget
    remembers its handle. *)
Definition SingleLoop (w : World) : Prop :=
  nextFrame w <> 0%N
  /\ (frames w = []
      \/ exists h, h <> 0%N /\ frames w = [h] /\ animationFrame (settings w) = Some h).

(** The cancellation at the head of [stopAnimation]. *)
Definition cancel_remembered (w : World) : World :=
  match animationFrame (settings w) with
  | Some h => if N.eqb h 0 then w else unschedule h w
  | None => w
  end.

(** The widget can render: it is hidden, or it still holds its context. *)
Definition can_render (w : World) : Prop :=
  hidden (settings w) = true \/ ctx (settings w) = object.

(** ** A running example *)

(** The widget [new ProgressBlock('progress')] on a page 1000 pixels wide. *)
Definition demo : World :=
  {| innerWidth := 1000;
     canvas :=
       {| width := 200; height := 200; visibility := EmptyString;
          parentNode := true; context := rendered 200 200 0 0 fresh |};
     valueInput := Some 0;
     resizeListener := true;
     frames := [];
     nextFrame := 1%N;
     settings :=
       {| ctx := object; value := 0; animate := false; hidden := false;
          rotation := 0; animationFrame := None |};
     this_canvas := undefined;
     renders := [0] |}.

(** The same widget after [setAnimate(true)]: frame 1 is scheduled. *)
Definition demo_spinning : World :=
  Eval vm_compute in step (call_setAnimate true) demo.

(** The same widget after [setHidden(true)]. *)
Definition demo_hidden : World :=
  Eval vm_compute in step (call_setHidden true) demo.



(** ** app.js: the controls of the page *)

Module App.

(** A character in the range of the class [0-9]. *)
Definition is_digit (c : Ascii.ascii) : bool :=
  (48 <=? Ascii.N_of_ascii c)%N && (Ascii.N_of_ascii c <=? 57)%N.

(** [text.replace(/[^0-9]/g, '')]: the decimal digits of the text, in order. *)
Fixpoint digits_only (s : string) : string :=
  match s with
  | EmptyString => EmptyString
  | String c s' => if is_digit c then String c (digits_only s') else digits_only s'
  end.

(** The number a string of decimal digits spells, read after [acc]. *)
Fixpoint decimal (acc : N) (s : string) : N :=
  match s with
  | EmptyString => acc
  | String c s' => decimal (acc * 10 + (Ascii.N_of_ascii c - 48))%N s'
  end.

(** [Number(s)] for a string [s] of decimal digits; [Number('')] is 0.  Only
    such strings are passed to it. *)
Definition Number (s : string) : Q := inject_Z (Z.of_N (decimal 0 s)).

(** The first listener of the 'input' event of the field 'value'; [text] is
    [e.target.value] as the user left it.  The field then shows the number
    written to it. *)
Definition on_value_input (text : string) : M unit :=
  let value := digits_only text in
  let value := Math_min 100 (Math_max 0 (Number value)) in
  modify (set_valueInput (Some value)) ;;
  setValue value.

(** The second listener of the same event; [shown] is the number
    [Number(e.target.value)] of what the field shows by then. *)
Definition on_value_input_again (shown : Q) : M unit :=
  let value := Math_min 100 (Math_max 0 shown) in
  setValue value.

(** The listeners of the 'change' events of the two checkboxes. *)
Definition on_animate_change (checked : bool) : M unit := setAnimate checked.

Definition on_hidden_change (checked : bool) : M unit := setHidden checked.

(** What the page does after [new ProgressBlock('progress')]: the user edits
    the field or toggles a checkbox, a frame comes due, the viewport changes
    width. *)
Inductive Event : Type :=
| input (text : string)
| animate_change (checked : bool)
| hidden_change (checked : bool)
| frame (h : N)
| resized (newWidth : Q).

(** Both listeners of 'input' run, the second whether or not the first
    threw; it reads what the first wrote to the field. *)
Definition input_event (text : string) (w : World) : World :=
  let w1 := snd (on_value_input text w) in
  match valueInput w1 with
  | Some shown => snd (on_value_input_again shown w1)
  | None => w1
  end.

Definition handle (e : Event) (w : World) : World :=
  match e with
  | input text => input_event text w
  | animate_change checked => snd (on_animate_change checked w)
  | hidden_change checked => snd (on_hidden_change checked w)
  | frame h => step (frame_due h) w
  | resized q => step (window_resize q) w
  end.

Definition handle_all (es : list Event) (w : World) : World :=
  fold_left (fun w e => handle e w) es w.

(** Every 'change' of the animate checkbox reports a state other than the one
    the widget was last given, as a checkbox that is toggled does. *)
Fixpoint toggled (es : list Event) (w : World) : bool :=
  match es with
  | [] => true
  | e :: es' =>
      match e with
      | animate_change checked => negb (Bool.eqb checked (animate (settings w)))
      | _ => true
      end && toggled es' (handle e w)
  end.

End App.

(** Every call of [setAnimate] in the sequence changes the flag. *)
Fixpoint flips (cs : list Call) (w : World) : bool :=
  match cs with
  | [] => true
  | c :: cs' =>
      match c with
      | call_setAnimate b => negb (Bool.eqb b (animate (settings w)))
      | _ => true
      end && flips cs' (step c w)
  end.

(** The widget constructed with [{ animate: true, hidden: true }]. *)
Definition demo_options : Options :=
  {| o_canvas := None; o_ctx := None;
     o_value := None; o_animate := Some true; o_hidden := Some true;
     o_rotation := None; o_animationFrame := None |}.

Definition demo_configured : World :=
  Eval vm_compute in
    match constructor "progress" demo_options (page 1000) with
    | Normal w => w
    | Throw _ => demo
    end.

(** The widget of the example after [destroy()]. *)
Definition demo_destroyed : World := Eval vm_compute in snd (destroy demo).

(** The loop runs only while the flag is set. *)
Definition LoopFollowsFlag (w : World) : Prop :=
  SingleLoop w /\ (animate (settings w) = false -> frames w = []).

(** What the controls keep true of the stored value and of the context. *)
Definition ValueSound (w : World) : Prop :=
  is_integer (value (settings w)) = true
  /\ in_range (value (settings w))
  /\ ctx (settings w) = object.

(** * Proofs *)

Ltac unfold_monad :=
  cbv beta iota zeta delta
    [bind ret gets modify on_ctx settings_value requestAnimationFrame
     cancelAnimationFrame unschedule log_render
     set_settings set_canvas set_frames set_nextFrame set_resizeListener
     set_innerWidth set_valueInput set_this_canvas
     set_ctx set_value set_animate set_hidden set_rotation set_animationFrame
     set_width set_height set_visibility set_parentNode set_context
     clearRect beginPath set_strokeStyle set_lineWidth arc stroke
     innerWidth canvas valueInput resizeListener frames nextFrame settings
     this_canvas renders
     ctx value animate hidden rotation animationFrame
     width height visibility parentNode context
     strokeStyle lineWidth path painted
     fst snd].

Ltac break_world w :=
  let iw := fresh "iw" in let cv := fresh "cv" in let vi := fresh "vi" in
  let rl := fresh "rl" in let fr := fresh "fr" in let nf := fresh "nf" in
  let st := fresh "st" in let tc := fresh "tc" in let rn := fresh "rn" in
  let sctx := fresh "sctx" in let sval := fresh "sval" in
  let sanim := fresh "sanim" in let shid := fresh "shid" in
  let srot := fresh "srot" in let saf := fresh "saf" in
  let cw := fresh "cw" in let ch := fresh "ch" in let cvis := fresh "cvis" in
  let cpar := fresh "cpar" in let cx := fresh "cx" in
  destruct w as [iw cv vi rl fr nf st tc rn];
  destruct st as [sctx sval sanim shid srot saf];
  destruct cv as [cw ch cvis cpar cx];
  destruct cx as [? ? ? ?].

Section Draw.

Variable r : Q.
Variable w : World.

Lemma draw_hidden :
  hidden (settings w) = true -> draw r w = (Normal tt, log_render r w).
Proof.
  break_world w. cbn [hidden settings]. intros ->.
  unfold draw. unfold_monad. reflexivity.
Qed.

Lemma draw_visible :
  hidden (settings w) = false -> ctx (settings w) = object ->
  draw r w =
  (Normal tt,
   log_render r
     (set_canvas
        (set_context
           (rendered (width (canvas w)) (height (canvas w))
                     (value (settings w)) r)) w)).
Proof.
  break_world w. cbn [hidden settings ctx]. intros -> ->.
  unfold draw, rendered, gauge, progress_arc, ring, radius_of.
  unfold_monad. rewrite <- !app_assoc. reflexivity.
Qed.

Lemma draw_released :
  hidden (settings w) = false -> ctx (settings w) <> object ->
  draw r w = (Throw TypeError, log_render r w).
Proof.
  break_world w. cbn [hidden settings ctx]. intros -> Hc.
  destruct sctx; try congruence; unfold draw; unfold_monad; reflexivity.
Qed.

(** Whatever happens in [draw], only the context of the canvas and the
    history of renders can differ afterwards. *)
Lemma draw_frame :
  exists c cx,
    draw r w = (c, log_render r (set_canvas (set_context (fun _ => cx)) w))
    /\ (can_render w -> c = Normal tt).
Proof.
  destruct (hidden (settings w)) eqn:Hh.
  - exists (Normal tt), (context (canvas w)). split; [|reflexivity].
    rewrite draw_hidden by assumption. break_world w. reflexivity.
  - destruct (ctx (settings w)) eqn:Hc.
    + exists (Throw TypeError), (context (canvas w)). split.
      * rewrite draw_released by congruence. break_world w. reflexivity.
      * intros [H|H]; congruence.
    + exists (Throw TypeError), (context (canvas w)). split.
      * rewrite draw_released by congruence. break_world w. reflexivity.
      * intros [H|H]; congruence.
    + eexists (Normal tt), _. split; [|reflexivity].
      rewrite draw_visible by assumption. break_world w. reflexivity.
Qed.

End Draw.

Lemma clamp_in_range (v : Q) : in_range (Math_min 100 (Math_max 0 v)).
Proof.
  unfold in_range, Math_min, Math_max.
  destruct (Q.max_spec 0 v) as [[H1 H2]|[H1 H2]];
  destruct (Q.min_spec 100 (Qmax 0 v)) as [[H3 H4]|[H3 H4]];
  rewrite ?H4, ?H2 in *; split; lra.
Qed.

Lemma clamp_cases (v : Q) :
  (v < 0 -> Math_min 100 (Math_max 0 v) == 0)
  /\ (0 <= v <= 100 -> Math_min 100 (Math_max 0 v) == v)
  /\ (100 < v -> Math_min 100 (Math_max 0 v) == 100).
Proof.
  unfold Math_min, Math_max.
  destruct (Q.max_spec 0 v) as [[H1 H2]|[H1 H2]];
  destruct (Q.min_spec 100 (Qmax 0 v)) as [[H3 H4]|[H3 H4]];
  rewrite ?H4, ?H2 in *; repeat split; intros; try lra.
Qed.
Ltac unfold_methods :=
  unfold step, perform, resize, run_frame, destroy, incrementProgress, setAnimate,
    startAnimation, stopAnimation, animate_tick, setHidden, setValue,
    setCanvasSize, draw, truthy.

Ltac crunch := unfold_methods; unfold_monad.

(** Case analysis on everything a method branches on. *)
Ltac split_world w :=
  let iw := fresh "iw" in let cv := fresh "cv" in let vi := fresh "vi" in
  let rl := fresh "rl" in let fr := fresh "fr" in let nf := fresh "nf" in
  let st := fresh "st" in let tc := fresh "tc" in let rn := fresh "rn" in
  let sctx := fresh "sctx" in let sval := fresh "sval" in
  let sanim := fresh "sanim" in let shid := fresh "shid" in
  let srot := fresh "srot" in let saf := fresh "saf" in
  let cw := fresh "cw" in let ch := fresh "ch" in let cvis := fresh "cvis" in
  let cpar := fresh "cpar" in let cx := fresh "cx" in
  let h := fresh "h" in
  destruct w as [iw cv vi rl fr nf st tc rn];
  destruct st as [sctx sval sanim shid srot saf];
  destruct cv as [cw ch cvis cpar cx];
  destruct cx as [? ? ? ?];
  destruct shid; destruct sctx; destruct saf as [h|].


Lemma to_unsigned_long_le_200 (q : Q) : q <= 200 -> to_unsigned_long q <= 200.
Proof.
  intros H. unfold to_unsigned_long. change 200 with (inject_Z 200).
  rewrite <- Zle_Qle. apply Z.max_lub; [discriminate|].
  change 200%Z with (Qfloor 200). apply Qfloor_resp_le. exact H.
Qed.

Lemma setValue_run (v : Q) (w : World) :
  exists c cx,
    setValue v w =
    (c, log_render 0
          (set_canvas (set_context (fun _ => cx))
             (set_settings (set_value (Math_min 100 (Math_max 0 v))) w)))
    /\ (can_render w -> c = Normal tt).
Proof.
  destruct (draw_frame 0 (set_settings (set_value (Math_min 100 (Math_max 0 v))) w))
    as (c & cx & E & Hc).
  exists c, cx. split; [exact E|].
  intros H. apply Hc. destruct H as [H|H]; [left|right]; break_world w; exact H.
Qed.

Lemma setCanvasSize_run (w : World) :
  let size := Math_min (innerWidth w * 0.8) 200 in
  exists c cx,
    setCanvasSize w =
    (c, log_render 0
          (set_canvas (set_context (fun _ => cx))
             (set_canvas (set_height size) (set_canvas (set_width size) w))))
    /\ (can_render w -> c = Normal tt).
Proof.
  intros size.
  destruct (draw_frame 0 (set_canvas (set_height size) (set_canvas (set_width size) w)))
    as (c & cx & E & Hc).
  exists c, cx. split; [exact E|].
  intros H. apply Hc. destruct H as [H|H]; [left|right]; break_world w; exact H.
Qed.

Lemma can_render_settings (w1 w2 : World) :
  hidden (settings w1) = hidden (settings w2) ->
  ctx (settings w1) = ctx (settings w2) ->
  can_render w1 -> can_render w2.
Proof. unfold can_render. intros -> ->. trivial. Qed.

Lemma stopAnimation_run (w : World) :
  exists c cx,
    stopAnimation w =
    (c, log_render 0
          (set_canvas (set_context (fun _ => cx))
             (set_settings (set_rotation 0) (cancel_remembered w))))
    /\ (can_render w -> c = Normal tt).
Proof.
  destruct (draw_frame 0 (set_settings (set_rotation 0) (cancel_remembered w)))
    as (c & cx & E & Hc).
  exists c, cx. split.
  - rewrite <- E. unfold stopAnimation, cancel_remembered, unschedule, truthy.
    destruct (animationFrame (settings w)) as [h|] eqn:Ha.
    + destruct (N.eqb h 0) eqn:Hz;
        cbv beta iota delta [bind gets modify ret cancelAnimationFrame negb];
        rewrite Ha; cbv beta iota delta [negb]; rewrite ?Hz; reflexivity.
    + cbv beta iota delta [bind gets modify ret]. rewrite Ha. reflexivity.
  - intros H. apply Hc. revert H. apply can_render_settings;
      unfold cancel_remembered, unschedule;
      destruct (animationFrame (settings w)) as [h|];
      try destruct (N.eqb h 0); break_world w; reflexivity.
Qed.

Lemma animate_tick_run (w : World) :
  let r' := rotation (settings w) + 0.02 in
  exists c cx,
    draw r' (set_settings (set_rotation r') w) =
      (c, log_render r' (set_canvas (set_context (fun _ => cx))
                           (set_settings (set_rotation r') w)))
    /\ (can_render w -> c = Normal tt)
    /\ animate_tick w =
       match c with
       | Normal _ =>
           (Normal tt,
            set_settings (set_animationFrame (Some (nextFrame w)))
              (set_nextFrame (nextFrame w + 1)%N
                 (set_frames (fun l => l ++ [nextFrame w])
                    (log_render r'
                       (set_canvas (set_context (fun _ => cx))
                          (set_settings (set_rotation r') w))))))
       | Throw e =>
           (Throw e,
            log_render r' (set_canvas (set_context (fun _ => cx))
                             (set_settings (set_rotation r') w)))
       end.
Proof.
  intros r'.
  destruct (draw_frame r' (set_settings (set_rotation r') w)) as (c & cx & E & Hc).
  exists c, cx. split; [exact E|]. split.
  - intros H. apply Hc. revert H. apply can_render_settings; break_world w; reflexivity.
  - unfold animate_tick. cbv beta iota delta [bind gets modify ret].
    replace (rotation (settings (set_settings (fun st => set_rotation (rotation st + 0.02) st) w)))
      with r' by (break_world w; reflexivity).
    replace (set_settings (fun st => set_rotation (rotation st + 0.02) st) w)
      with (set_settings (set_rotation r') w) by (break_world w; reflexivity).
    rewrite E. destruct c; [|reflexivity].
    break_world w. reflexivity.
Qed.

(** Decides the tests a method body is still stuck on. *)
Ltac case_split :=
  repeat match goal with
         | |- context [N.eqb ?a 0%N] => destruct (N.eqb a 0) eqn:?
         | |- context [existsb ?f ?l] => destruct (existsb f l) eqn:?
         | |- context [JS.lt ?a ?b] => destruct (JS.lt a b) eqn:?
         end;
  cbv beta iota delta [negb].

Lemma step_value (c : Call) (w : World) :
  value (settings (step c w)) = value (settings w)
  \/ in_range (value (settings (step c w))).
Proof.
  destruct c as [v|b|b| |v| |k|q].
  - right. unfold step, perform. destruct (setValue_run v w) as (c & cx & E & _).
    rewrite E. apply clamp_in_range.
  - left. destruct b; split_world w; crunch; case_split; reflexivity.
  - left. break_world w; reflexivity.
  - left. split_world w; crunch; reflexivity.
  - unfold step, perform, incrementProgress.
    cbv beta iota delta [bind gets settings_value].
    destruct (JS.lt (value (settings w)) 100).
    + right. cbv beta iota delta [bind gets modify settings_value].
      destruct (setValue_run v (set_settings (set_value v) w)) as (c & cx & E & _).
      rewrite E. destruct c.
      * cbv beta iota. match goal with |- context [match ?x with Some _ => _ | None => _ end] => destruct x end; apply clamp_in_range.
      * apply clamp_in_range.
    + left. reflexivity.
  - left. split_world w; destruct cpar; crunch; case_split; reflexivity.
  - left. split_world w; crunch; case_split; reflexivity.
  - left. split_world w; destruct rl; crunch; reflexivity.
Qed.

Lemma constructor_demo : constructor "progress" no_options (page 1000) = Normal demo.
Proof. vm_compute. reflexivity. Qed.

Lemma filter_twice {A : Type} (f : A -> bool) (l : list A) :
  filter f (filter f l) = filter f l.
Proof.
  induction l as [|a l IH]; [reflexivity|].
  cbn [filter]. destruct (f a) eqn:E; cbn [filter]; rewrite ?E, IH; reflexivity.
Qed.

Lemma unscheduled_absent (h : N) (l : list N) :
  ~ In h (filter (fun k => negb (N.eqb k h)) l).
Proof.
  intros H. apply filter_In in H. destruct H as [_ H].
  rewrite N.eqb_refl in H. discriminate.
Qed.

Lemma destroy_run (w : World) :
  destroy w =
  match stopAnimation w with
  | (Normal _, w1) =>
      match ctx (settings w1) with
      | object =>
          (Normal tt,
           set_settings (set_ctx null)
             (set_this_canvas null
                (set_canvas (set_parentNode false)
                   (set_canvas
                      (set_context
                         (clearRect 0 0 (width (canvas w1)) (height (canvas w1))))
                      (set_resizeListener false w1)))))
      | _ => (Throw TypeError, set_resizeListener false w1)
      end
  | (Throw e, w1) => (Throw e, w1)
  end.
Proof.
  unfold destroy. cbv beta iota delta [bind].
  destruct (stopAnimation w) as [[[]|e] w1]; [|reflexivity].
  split_world w1; destruct cpar; reflexivity.
Qed.

Lemma cancel_remembered_frames (w : World) (h : N) :
  animationFrame (settings w) = Some h -> h <> 0%N ->
  cancel_remembered w = unschedule h w.
Proof.
  intros Ha Hz. unfold cancel_remembered. rewrite Ha.
  destruct (N.eqb_spec h 0); [contradiction|reflexivity].
Qed.

Lemma run_frame_due (h : N) (w : World) :
  In h (frames w) -> run_frame h w = animate_tick (unschedule h w).
Proof.
  intros Hin. unfold run_frame. cbv beta iota delta [bind gets modify].
  replace (existsb (N.eqb h) (frames w)) with true; [reflexivity|].
  symmetry. apply existsb_exists. exists h. split; [exact Hin|apply N.eqb_refl].
Qed.

Lemma destroy_normal_ctx (w : World) :
  fst (destroy w) = Normal tt -> ctx (settings w) = object.
Proof.
  destruct (ctx (settings w)) eqn:Hc; [| |reflexivity];
    split_world w; try discriminate; crunch; case_split; discriminate.
Qed.

Lemma constructor_value (id : string) (o : Options) (p : Page) (w : World) :
  constructor id o p = Normal w -> value (settings w) = merge 0 (o_value o).
Proof.
  unfold constructor. destruct (getElementById id p) as [el|]; [|discriminate].
  match goal with |- context [setCanvasSize ?w0] =>
    destruct (setCanvasSize_run w0) as (c & cx & E & _); rewrite E end.
  destruct c; [|discriminate]. intros H. inversion H. reflexivity.
Qed.

(** ** The loop keeps going *)



(** ** One loop at a time, unless it is started twice *)

Lemma animate_tick_loop (w : World) :
  nextFrame w <> 0%N -> frames w = [] -> SingleLoop (snd (animate_tick w)).
Proof.
  intros Hn Hf.
  destruct (animate_tick_run w) as (c & cx & _ & _ & Et). rewrite Et.
  destruct c.
  - split.
    + break_world w. cbn in *. lia.
    + right. exists (nextFrame w). split; [exact Hn|].
      break_world w. cbn in *. subst. split; reflexivity.
  - split; [break_world w; exact Hn|]. left. break_world w. exact Hf.
Qed.

Lemma stopAnimation_loop (w : World) :
  SingleLoop w -> SingleLoop (snd (stopAnimation w)) /\ frames (snd (stopAnimation w)) = [].
Proof.
  intros [Hn Hl].
  destruct (stopAnimation_run w) as (c & cx & E & _). rewrite E.
  assert (Hf : frames (cancel_remembered w) = []).
  { destruct Hl as [Hf|(h & Hz & Hf & Ha)].
    - unfold cancel_remembered. destruct (animationFrame (settings w)) as [h|];
        [destruct (N.eqb h 0)|]; break_world w; cbn in *; subst; reflexivity.
    - rewrite (cancel_remembered_frames w h Ha Hz). break_world w. cbn in *. subst.
      cbn [filter]. rewrite N.eqb_refl. reflexivity. }
  assert (Hn' : nextFrame (cancel_remembered w) = nextFrame w).
  { unfold cancel_remembered. destruct (animationFrame (settings w)) as [h|];
      [destruct (N.eqb h 0)|]; break_world w; reflexivity. }
  destruct (cancel_remembered w) as [? ? ? ? ? ? ? ? ?]. cbn in *. subst.
  split; [split; [exact Hn|left; reflexivity]|reflexivity].
Qed.

Lemma single_loop_step (c : Call) (w : World) :
  SingleLoop w -> restarts c w = false -> SingleLoop (step c w).
Proof.
  intros HS Hre. pose proof HS as [Hn Hl].
  destruct c as [v|b|b| |v| |k|q]; unfold step, perform.
  - destruct (setValue_run v w) as (c & cx & E & _). rewrite E.
    break_world w. exact HS.
  - destruct b.
    + assert (Hf : frames w = []).
      { unfold restarts in Hre. destruct (frames w); [reflexivity|discriminate]. }
      apply (animate_tick_loop (set_settings (set_animate true) w));
        break_world w; assumption.
    + apply (stopAnimation_loop (set_settings (set_animate false) w)).
      break_world w. exact HS.
  - break_world w. exact HS.
  - destruct (setCanvasSize_run w) as (c & cx & E & _). rewrite E.
    break_world w. exact HS.
  - unfold incrementProgress. cbv beta iota delta [bind gets settings_value].
    destruct (JS.lt (value (settings w)) 100); [|exact HS].
    cbv beta iota delta [bind gets modify settings_value].
    destruct (setValue_run v (set_settings (set_value v) w)) as (c & cx & E & _).
    rewrite E. destruct c.
    + cbv beta iota.
      match goal with |- context [match ?x with Some _ => _ | None => _ end] =>
        destruct x end; break_world w; exact HS.
    + break_world w. exact HS.
  - rewrite destroy_run.
    destruct (stopAnimation_loop w HS) as [[Hn1 _] Hf1].
    destruct (stopAnimation w) as [[[]|e] w1]; cbn [snd] in *.
    + split_world w1; cbn in *; subst; (split; [exact Hn1|left; reflexivity]).
    + split; [exact Hn1|left; exact Hf1].
  - unfold run_frame. cbv beta iota delta [bind gets modify].
    destruct (existsb (N.eqb k) (frames w)) eqn:Hex; [|exact HS].
    apply animate_tick_loop; [break_world w; exact Hn|].
    destruct Hl as [Hf|(h & Hz & Hf & Ha)].
    + rewrite Hf in Hex. discriminate.
    + rewrite Hf in Hex. cbn in Hex. rewrite orb_false_r in Hex.
      apply N.eqb_eq in Hex. subst k.
      break_world w. cbn in *. subst. cbn [filter]. rewrite N.eqb_refl. reflexivity.
  - unfold resize. cbv beta iota delta [bind gets modify].
    destruct (resizeListener (set_innerWidth q w)).
    + destruct (setCanvasSize_run (set_innerWidth q w)) as (c & cx & E & _).
      rewrite E. break_world w. exact HS.
    + break_world w. exact HS.
Qed.

Lemma single_loop_run (cs : list Call) : forall w : World,
  SingleLoop w -> guarded cs w = true -> SingleLoop (run cs w).
Proof.
  induction cs as [|c cs IH]; intros w HS Hg; [exact HS|].
  cbn [guarded] in Hg. apply andb_true_iff in Hg. destruct Hg as [Hc Hg].
  apply negb_true_iff in Hc. cbn [run fold_left].
  apply IH; [apply single_loop_step; assumption|exact Hg].
Qed.

Lemma single_loop_at_most_one (w : World) :
  SingleLoop w -> (List.length (frames w) <= 1)%nat.
Proof.
  intros [_ [Hf|(h & _ & Hf & _)]]; rewrite Hf; cbn; lia.
Qed.

Lemma constructor_single_loop (id : string) (o : Options) (p : Page) (w : World) :
  page_nextFrame p <> 0%N -> constructor id o p = Normal w -> SingleLoop w.
Proof.
  intros Hn. unfold constructor.
  destruct (getElementById id p) as [el|]; [|discriminate].
  match goal with |- context [setCanvasSize ?w0] =>
    destruct (setCanvasSize_run w0) as (c & cx & E & _); rewrite E end.
  destruct c; [|discriminate]. intros H. inversion H.
  split; [exact Hn|left; reflexivity].
Qed.

(** A widget on which a running loop is never started again has at most one
    frame scheduled, whatever else is called. *)
Lemma guarded_run_at_most_one_frame
  (id : string) (o : Options) (p : Page) (w : World) (cs : list Call) :
  page_nextFrame p <> 0%N -> constructor id o p = Normal w ->
  guarded cs w = true -> (List.length (frames (run cs w)) <= 1)%nat.
Proof.
  intros Hn Hc Hg. apply single_loop_at_most_one, single_loop_run; [|exact Hg].
  exact (constructor_single_loop id o p w Hn Hc).
Qed.

(** * The claims *)

(** C1.  For every number [v], [setValue(v)] stores
    [Math.min(100, Math.max(0, v))], which is [v] clamped to the range from 0
    to 100 (0 below it, 100 above it, [v] itself inside), and then
    calls [draw] once, with rotation 0: the call returns normally when the
    widget can render, and on a visible widget it paints the gauge for the new
    value, not rotated. *)
Theorem setValue_stores_clamped_value (v : Q) (w : World) :
  let w' := snd (setValue v w) in
  value (settings w') = Math_min 100 (Math_max 0 v)
  /\ in_range (value (settings w'))
  /\ (v < 0 -> value (settings w') == 0)
  /\ (0 <= v <= 100 -> value (settings w') == v)
  /\ (100 < v -> value (settings w') == 100)
  /\ renders w' = renders w ++ [0]
  /\ (can_render w -> fst (setValue v w) = Normal tt)
  /\ (hidden (settings w) = false -> ctx (settings w) = object ->
      painted (context (canvas w')) =
      painted (context (canvas w)) ++
      gauge (width (canvas w)) (height (canvas w)) (Math_min 100 (Math_max 0 v)) 0).
Proof.
  intros w'. subst w'.
  destruct (setValue_run v w) as (c & cx & E & Hc).
  destruct (clamp_cases v) as (Hlo & Hmid & Hhi).
  repeat match goal with |- _ /\ _ => split end.
  - rewrite E. reflexivity.
  - rewrite E. apply clamp_in_range.
  - rewrite E. exact Hlo.
  - rewrite E. exact Hmid.
  - rewrite E. exact Hhi.
  - rewrite E. reflexivity.
  - intros H. rewrite E. apply Hc, H.
  - intros Hh Hx. unfold setValue, bind, modify.
    rewrite draw_visible by (break_world w; assumption).
    break_world w. reflexivity.
Qed.

Lemma setValue_stores_clamped_value_witness :
  value (settings (snd (setValue 150 demo))) = 100
  /\ value (settings (snd (setValue (-5) demo))) = 0
  /\ renders (snd (setValue 150 demo)) = renders demo ++ [0].
Proof.
  split; [|split].
  - exact (proj1 (setValue_stores_clamped_value 150 demo)).
  - exact (proj1 (setValue_stores_clamped_value (-5) demo)).
  - exact (proj1 (proj2 (proj2 (proj2 (proj2 (proj2
             (setValue_stores_clamped_value 150 demo))))))).
Defined.

(** C2, as stated, fails: a [value] passed to the constructor is stored as it
    is, [setValue] keeps fractions, and what it stores for [NaN] is [NaN],
    which is not at least 0. *)
Lemma value_out_of_range_or_fractional :
  (exists w,
      constructor "progress"
        {| o_canvas := None; o_ctx := None;
           o_value := Some 150; o_animate := None; o_hidden := None;
           o_rotation := None; o_animationFrame := None |} (page 1000) = Normal w
      /\ value (settings w) = 150 /\ ~ in_range (value (settings w)))
  /\ Reachable "progress" no_options (page 1000) (step (call_setValue 50.5) demo)
  /\ value (settings (step (call_setValue 50.5) demo)) = 50.5
  /\ is_integer (value (settings (step (call_setValue 50.5) demo))) = false
  /\ Double.clamp PrimFloat.nan = PrimFloat.nan
  /\ PrimFloat.leb PrimFloat.zero (Double.clamp PrimFloat.nan) = false.
Proof.
  split; [|split; [|split; [|split; [|split]]]].
  - eexists. split; [vm_compute; reflexivity|]. split; [reflexivity|].
    unfold in_range. cbn. intros [_ H]. revert H. apply Qlt_not_le. reflexivity.
  - apply reach_step, reach_new, constructor_demo.
  - vm_compute. reflexivity.
  - vm_compute. reflexivity.
  - reflexivity.
  - reflexivity.
Qed.

(** C2, amended.  When the widget is constructed without a [value], or with
    one between 0 and 100, the stored value is between 0 and 100 in every
    state it can reach by calls whose arguments are finite numbers.  In such
    a state [setValue] rejects no finite number: below 0 it stores 0, above
    100 it stores 100, in between the number itself, and it returns normally
    when the widget can render. *)
Theorem value_stays_in_range (id : string) (o : Options) (p : Page) (w : World) :
  in_range (merge 0 (o_value o)) ->
  Reachable id o p w ->
  in_range (value (settings w))
  /\ forall v : Q,
       in_range (value (settings (step (call_setValue v) w)))
       /\ (v < 0 -> value (settings (step (call_setValue v) w)) == 0)
       /\ (100 < v -> value (settings (step (call_setValue v) w)) == 100)
       /\ (in_range v -> value (settings (step (call_setValue v) w)) == v)
       /\ (can_render w -> fst (setValue v w) = Normal tt).
Proof.
  intros H0 Hr. split.
  - induction Hr as [w Hc|w c Hr IH].
    + rewrite (constructor_value _ _ _ _ Hc). exact H0.
    + destruct (step_value c w) as [E|E]; [rewrite E; exact IH|exact E].
  - intros v. unfold step, perform.
    destruct (setValue_run v w) as (c & cx & E & Hc).
    destruct (clamp_cases v) as (Hlo & Hmid & Hhi).
    rewrite E. cbn [fst snd].
    split; [apply clamp_in_range|]. split; [exact Hlo|]. split; [exact Hhi|].
    split; [exact Hmid|exact Hc].
Qed.

Lemma value_stays_in_range_witness :
  in_range (merge 0 (o_value no_options))
  /\ Reachable "progress" no_options (page 1000)
       (step (call_setValue (-5)) (step (call_setValue 150) demo))
  /\ in_range (value (settings (step (call_setValue (-5)) (step (call_setValue 150) demo)))).
Proof.
  assert (H0 : in_range (merge 0 (o_value no_options)))
    by (unfold in_range; cbn; split; [apply Qle_refl | discriminate]).
  assert (Hr : Reachable "progress" no_options (page 1000)
                 (step (call_setValue (-5)) (step (call_setValue 150) demo)))
    by (apply reach_step, reach_step, reach_new, constructor_demo).
  split; [exact H0|]. split; [exact Hr|].
  exact (proj1 (value_stays_in_range "progress" no_options (page 1000) _ H0 Hr)).
Defined.

(** C3, as stated, fails: the second [destroy()] throws. *)
Lemma second_destroy_raises :
  fst (destroy demo) = Normal tt
  /\ fst (destroy (snd (destroy demo))) = Throw TypeError.
Proof. split; vm_compute; reflexivity. Qed.

(** C3, amended.  A second [destroy()] after a first one that returned throws
    a [TypeError], since [settings.ctx] is [null] by then, and leaves the
    state of the widget and of the page as the first call left it: settings,
    canvas, scheduled frames and listener are unchanged; only the history
    shows the call of [draw] that [stopAnimation] made. *)
Theorem second_destroy_throws_state_unchanged (w : World) :
  fst (destroy w) = Normal tt ->
  let w1 := snd (destroy w) in
  destroy w1 = (Throw TypeError, log_render 0 w1)
  /\ settings (snd (destroy w1)) = settings w1
  /\ canvas (snd (destroy w1)) = canvas w1
  /\ frames (snd (destroy w1)) = frames w1
  /\ resizeListener (snd (destroy w1)) = resizeListener w1
  /\ this_canvas (snd (destroy w1)) = this_canvas w1.
Proof.
  intros Hn w1.
  assert (E : destroy w1 = (Throw TypeError, log_render 0 w1)).
  { subst w1. pose proof (destroy_normal_ctx w Hn) as Hc. clear Hn.
    split_world w; try discriminate; destruct cpar; try destruct h as [|p];
      crunch; cbv beta iota delta [negb N.eqb];
      rewrite ?filter_twice; reflexivity. }
  rewrite E. repeat split.
Qed.

Lemma second_destroy_throws_state_unchanged_witness :
  fst (destroy demo_spinning) = Normal tt
  /\ destroy (snd (destroy demo_spinning)) =
     (Throw TypeError, log_render 0 (snd (destroy demo_spinning))).
Proof.
  assert (H : fst (destroy demo_spinning) = Normal tt) by (vm_compute; reflexivity).
  split; [exact H|].
  exact (proj1 (second_destroy_throws_state_unchanged demo_spinning H)).
Defined.

(** C4.  The code at [setAnimate(true); setAnimate(true)]: two frames are
    scheduled and the widget remembers the second only; [setAnimate(false)]
    cancels that one, the first stays scheduled, and when it comes due the
    angle leaves 0 and the loop goes on. *)
Theorem double_start_leaves_a_frame_running :
  let w := run [call_setAnimate true; call_setAnimate true] demo in
  Reachable "progress" no_options (page 1000) w
  /\ frames w = [1; 2]%N
  /\ animationFrame (settings w) = Some 2%N
  /\ frames (step (call_setAnimate false) w) = [1]%N
  /\ rotation (settings (step (call_setAnimate false) w)) = 0
  /\ 0 < rotation (settings (step (frame_due 1) (step (call_setAnimate false) w)))
  /\ frames (step (frame_due 1) (step (call_setAnimate false) w)) = [3]%N.
Proof.
  cbv zeta. cbn [run fold_left].
  repeat match goal with |- _ /\ _ => split end; try (vm_compute; reflexivity).
  apply reach_step, reach_step, reach_new, constructor_demo.
Qed.

(** C5.  When the widget remembers a frame handle [h], stopping the animation,
    by [setAnimate(false)] or by [destroy()], takes [h] out of the scheduled
    frames (so none is left when [h] was the only one), sets the rotation
    to 0 and calls [draw] once, with rotation 0; on a visible widget that
    call paints the gauge not rotated ([destroy] then clears it). *)
Theorem stopping_cancels_resets_and_renders_once (w : World) (h : N) :
  animationFrame (settings w) = Some h -> h <> 0%N ->
  (let w' := snd (setAnimate false w) in
   frames w' = filter (fun k => negb (N.eqb k h)) (frames w)
   /\ ~ In h (frames w')
   /\ (frames w = [h] -> frames w' = [])
   /\ rotation (settings w') = 0
   /\ renders w' = renders w ++ [0]
   /\ (can_render w -> fst (setAnimate false w) = Normal tt)
   /\ (hidden (settings w) = false -> ctx (settings w) = object ->
       painted (context (canvas w')) =
       painted (context (canvas w)) ++
       gauge (width (canvas w)) (height (canvas w)) (value (settings w)) 0))
  /\
  (let w' := snd (destroy w) in
   frames w' = filter (fun k => negb (N.eqb k h)) (frames w)
   /\ ~ In h (frames w')
   /\ (frames w = [h] -> frames w' = [])
   /\ rotation (settings w') = 0
   /\ renders w' = renders w ++ [0]
   /\ (ctx (settings w) = object -> fst (destroy w) = Normal tt)
   /\ (hidden (settings w) = false -> ctx (settings w) = object ->
       painted (context (canvas w')) =
       painted (context (canvas w)) ++
       gauge (width (canvas w)) (height (canvas w)) (value (settings w)) 0 ++
       [Cleared 0 0 (width (canvas w)) (height (canvas w))])).
Proof.
  intros Ha Hz.
  assert (Hlast : frames w = [h] -> filter (fun k => negb (N.eqb k h)) (frames w) = []).
  { intros ->. cbn [filter]. rewrite N.eqb_refl. reflexivity. }
  split.
  - intros w'. subst w'.
    assert (E0 : setAnimate false w = stopAnimation (set_settings (set_animate false) w))
      by reflexivity.
    destruct (stopAnimation_run (set_settings (set_animate false) w)) as (c & cx & E & Hc).
    rewrite (cancel_remembered_frames _ h) in E
      by (try assumption; break_world w; exact Ha).
    rewrite E0, E.
    repeat match goal with |- _ /\ _ => split end.
    + break_world w. reflexivity.
    + replace (frames _) with (filter (fun k => negb (N.eqb k h)) (frames w))
        by (break_world w; reflexivity).
      apply unscheduled_absent.
    + intros Hf. rewrite <- (Hlast Hf). break_world w. reflexivity.
    + reflexivity.
    + break_world w. reflexivity.
    + intros H. apply Hc. revert H. apply can_render_settings; break_world w; reflexivity.
    + intros Hh Hx. rewrite <- E. clear E Hc.
      split_world w; try discriminate. inversion Ha; subst.
      crunch. destruct (N.eqb h 0); cbv beta iota delta [negb];
        rewrite <- !app_assoc; reflexivity.
  - intros w'. subst w'. rewrite destroy_run.
    destruct (stopAnimation_run w) as (c & cx & E & Hc).
    rewrite (cancel_remembered_frames _ h) in E by assumption.
    repeat match goal with |- _ /\ _ => split end.
    + rewrite E. destruct c; [|break_world w; reflexivity].
      split_world w; reflexivity.
    + replace (frames _) with (filter (fun k => negb (N.eqb k h)) (frames w)).
      * apply unscheduled_absent.
      * rewrite E. destruct c; [|break_world w; reflexivity].
        split_world w; reflexivity.
    + intros Hf. rewrite <- (Hlast Hf). rewrite E.
      destruct c; [|break_world w; reflexivity]. split_world w; reflexivity.
    + rewrite E. destruct c; [|break_world w; reflexivity].
      split_world w; reflexivity.
    + rewrite E. destruct c; [|break_world w; reflexivity].
      split_world w; reflexivity.
    + intros Hx. rewrite E, Hc by (right; exact Hx).
      split_world w; try discriminate; reflexivity.
    + intros Hh Hx. clear E Hc.
      split_world w; try discriminate. inversion Ha; subst.
      crunch. destruct (N.eqb h 0); cbv beta iota delta [negb];
        rewrite <- !app_assoc; reflexivity.
Qed.

Lemma stopping_cancels_resets_and_renders_once_witness :
  animationFrame (settings demo_spinning) = Some 1%N
  /\ 1%N <> 0%N
  /\ frames demo_spinning = [1%N]
  /\ frames (snd (setAnimate false demo_spinning)) = []
  /\ rotation (settings (snd (setAnimate false demo_spinning))) = 0
  /\ renders (snd (setAnimate false demo_spinning)) = renders demo_spinning ++ [0]
  /\ frames (snd (destroy demo_spinning)) = []
  /\ rotation (settings (snd (destroy demo_spinning))) = 0
  /\ renders (snd (destroy demo_spinning)) = renders demo_spinning ++ [0].
Proof.
  assert (Ha : animationFrame (settings demo_spinning) = Some 1%N) by reflexivity.
  assert (Hz : 1%N <> 0%N) by discriminate.
  assert (Hf : frames demo_spinning = [1%N]) by reflexivity.
  destruct (stopping_cancels_resets_and_renders_once demo_spinning 1 Ha Hz)
    as [(_ & _ & S1 & S2 & S3 & _) (_ & _ & D1 & D2 & D3 & _)].
  split; [exact Ha|]. split; [exact Hz|]. split; [exact Hf|].
  split; [exact (S1 Hf)|]. split; [exact S2|]. split; [exact S3|].
  split; [exact (D1 Hf)|]. split; [exact D2|]. exact D3.
Defined.







(** C8.  A [draw] on a hidden widget returns at once, without an error and
    whether or not the context is still there: nothing is cleared or stroked,
    and the canvas, the settings and the scheduled frames are as before. *)
Theorem draw_hidden_no_drawing (r : Q) (w : World) :
  hidden (settings w) = true ->
  draw r w = (Normal tt, log_render r w)
  /\ canvas (snd (draw r w)) = canvas w
  /\ painted (context (canvas (snd (draw r w)))) = painted (context (canvas w))
  /\ settings (snd (draw r w)) = settings w
  /\ frames (snd (draw r w)) = frames w.
Proof.
  intros Hh. rewrite (draw_hidden r w Hh). repeat split.
Qed.

Lemma draw_hidden_no_drawing_witness :
  hidden (settings demo_hidden) = true
  /\ draw 0 demo_hidden = (Normal tt, log_render 0 demo_hidden)
  /\ canvas (snd (draw 0 demo_hidden)) = canvas demo_hidden.
Proof.
  destruct (draw_hidden_no_drawing 0 demo_hidden eq_refl) as (D1 & D2 & _).
  split; [reflexivity|]. split; [exact D1|exact D2].
Defined.




(** C10.  [setHidden(flag)] returns normally, having changed the [hidden]
    setting and the [visibility] style of the canvas and nothing else: it does
    not call [draw], and value, rotation, animate, animationFrame, the
    context with what is painted on it, the size of the canvas and the
    scheduled frames are as before; so after [setHidden(false)] the canvas
    shows what was last painted. *)
Theorem setHidden_changes_only_visibility (flag : bool) (w : World) :
  let w' := snd (setHidden flag w) in
  setHidden flag w =
    (Normal tt,
     set_canvas (set_visibility (if flag then "hidden" else "visible"))
       (set_settings (set_hidden flag) w))
  /\ hidden (settings w') = flag
  /\ visibility (canvas w') = (if flag then "hidden" else "visible")%string
  /\ value (settings w') = value (settings w)
  /\ rotation (settings w') = rotation (settings w)
  /\ animate (settings w') = animate (settings w)
  /\ animationFrame (settings w') = animationFrame (settings w)
  /\ ctx (settings w') = ctx (settings w)
  /\ context (canvas w') = context (canvas w)
  /\ width (canvas w') = width (canvas w)
  /\ height (canvas w') = height (canvas w)
  /\ parentNode (canvas w') = parentNode (canvas w)
  /\ renders w' = renders w
  /\ frames w' = frames w
  /\ nextFrame w' = nextFrame w
  /\ resizeListener w' = resizeListener w
  /\ innerWidth w' = innerWidth w.
Proof.
  break_world w. repeat split.
Qed.

Lemma setHidden_changes_only_visibility_witness :
  hidden (settings (snd (setHidden false demo_hidden))) = false
  /\ visibility (canvas (snd (setHidden false demo_hidden))) = "visible"%string
  /\ context (canvas (snd (setHidden false demo_hidden))) = context (canvas demo_hidden)
  /\ renders (snd (setHidden false demo_hidden)) = renders demo_hidden.
Proof.
  destruct (setHidden_changes_only_visibility false demo_hidden)
    as (_ & H1 & H2 & _ & _ & _ & _ & _ & H3 & _ & _ & _ & H4 & _).
  split; [exact H1|]. split; [exact H2|]. split; [exact H3|exact H4].
Defined.

(** * Further properties of the code *)

(** ** The constructor *)

(** What the constructor returns when the canvas is there. *)
Lemma constructor_run (id : string) (o : Options) (p : Page) :
  id = page_canvasId p ->
  let edge := to_unsigned_long (Math_min (page_innerWidth p * 0.8) 200) in
  let through :=
    match o_ctx o with
    | Some (Some c) => c
    | _ => context (page_canvas p)
    end in
  let st :=
    {| ctx := match o_ctx o with Some None => null | _ => object end;
       value := merge 0 (o_value o);
       animate := merge false (o_animate o);
       hidden := merge false (o_hidden o);
       rotation := merge 0 (o_rotation o);
       animationFrame := merge None (o_animationFrame o) |} in
  let element := merge (page_canvas p) (o_canvas o) in
  let built (cx : Context2D) :=
    {| innerWidth := page_innerWidth p;
       canvas := {| width := edge; height := edge;
                    visibility := visibility element;
                    parentNode := parentNode element; context := cx |};
       valueInput := page_valueInput p; resizeListener := true;
       frames := []; nextFrame := page_nextFrame p;
       settings := st; this_canvas := undefined; renders := [0] |} in
  constructor id o p =
  if merge false (o_hidden o) then Normal (built through)
  else match o_ctx o with
       | Some None => Throw TypeError
       | _ => Normal (built (rendered edge edge (merge 0 (o_value o)) 0 through))
       end.
Proof.
  intros Hid. cbv zeta. unfold constructor, getElementById.
  rewrite (proj2 (String.eqb_eq _ _) Hid).
  unfold setCanvasSize. cbv beta iota zeta delta [bind gets modify].
  destruct (merge false (o_hidden o)) eqn:Hh.
  - rewrite draw_hidden by reflexivity. destruct (merge (page_canvas p) (o_canvas o)).
    reflexivity.
  - destruct (o_ctx o) as [[c|]|].
    + rewrite draw_visible by reflexivity.
      destruct (merge (page_canvas p) (o_canvas o)). reflexivity.
    + rewrite draw_released by (try reflexivity; discriminate). reflexivity.
    + rewrite draw_visible by reflexivity.
      destruct (merge (page_canvas p) (o_canvas o)). reflexivity.
Qed.



(** X2.  A constructed widget has the settings of the options over the
    defaults; its canvas, the one of [options.canvas] when given, is a square
    whose edge is the integer part of
    [Math.min(window.innerWidth * 0.8, 200)]; [draw] was called once, with
    rotation 0, painting through [options.ctx] when given, and the resize
    listener is registered.  The constructor starts no animation even under
    [animate: true], and leaves the visibility of the canvas alone even under
    [hidden: true], where nothing is painted either. *)
Theorem constructor_initial_state (id : string) (o : Options) (p : Page) (w : World) :
  constructor id o p = Normal w ->
  let edge := to_unsigned_long (Math_min (page_innerWidth p * 0.8) 200) in
  let element := merge (page_canvas p) (o_canvas o) in
  let through :=
    match o_ctx o with
    | Some (Some c) => c
    | _ => context (page_canvas p)
    end in
  settings w =
    {| ctx := match o_ctx o with Some None => null | _ => object end;
       value := merge 0 (o_value o);
       animate := merge false (o_animate o);
       hidden := merge false (o_hidden o);
       rotation := merge 0 (o_rotation o);
       animationFrame := merge None (o_animationFrame o) |}
  /\ width (canvas w) = edge /\ height (canvas w) = edge
  /\ renders w = [0]
  /\ resizeListener w = true
  /\ frames w = []
  /\ visibility (canvas w) = visibility element
  /\ parentNode (canvas w) = parentNode element
  /\ painted (context (canvas w)) =
     painted through ++
     (if merge false (o_hidden o) then []
      else gauge edge edge (merge 0 (o_value o)) 0).
Proof.
  intros Hc.
  assert (Hid : id = page_canvasId p).
  { unfold constructor, getElementById in Hc.
    destruct (String.eqb_spec id (page_canvasId p)); [assumption|discriminate]. }
  rewrite (constructor_run id o p Hid) in Hc. cbv zeta in *.
  destruct (merge false (o_hidden o)).
  - inversion Hc. subst w. cbn. rewrite app_nil_r. repeat split.
  - destruct (o_ctx o) as [[c|]|]; try discriminate;
      inversion Hc; subst w; cbn; repeat split.
Qed.

Lemma constructor_initial_state_witness :
  constructor "progress" demo_options (page 1000) = Normal demo_configured
  /\ animate (settings demo_configured) = true
  /\ frames demo_configured = []
  /\ hidden (settings demo_configured) = true
  /\ visibility (canvas demo_configured) = visibility (page_canvas (page 1000))
  /\ painted (context (canvas demo_configured)) = [].
Proof.
  assert (H : constructor "progress" demo_options (page 1000) = Normal demo_configured)
    by (vm_compute; reflexivity).
  destruct (constructor_initial_state _ _ _ _ H) as (S1 & _ & _ & _ & _ & S2 & S3 & _ & S4).
  split; [exact H|]. split; [rewrite S1; reflexivity|]. split; [exact S2|].
  split; [rewrite S1; reflexivity|]. split; [exact S3|exact S4].
Defined.

(** ** incrementProgress *)

Lemma lt_100_true (q : Q) : q < 100 -> JS.lt q 100 = true.
Proof.
  intros H. unfold JS.lt. destruct (Qle_bool 100 q) eqn:E; [|reflexivity].
  apply Qle_bool_iff in E. lra.
Qed.

Lemma lt_100_false (q : Q) : 100 <= q -> JS.lt q 100 = false.
Proof.
  intros H. unfold JS.lt. apply Qle_bool_iff in H. rewrite H. reflexivity.
Qed.

(** X3.  [incrementProgress(v)] does nothing at all once the stored value has
    reached 100: no write, no [draw].  Below 100 it stores [v] clamped to the
    range from 0 to 100 and calls [draw] once; when that call returns and the
    page has the field 'value', the field shows the stored value. *)
Theorem incrementProgress_stops_at_100 (v : Q) (w : World) :
  (100 <= value (settings w) -> incrementProgress v w = (Normal tt, w))
  /\ (value (settings w) < 100 ->
      let w' := snd (incrementProgress v w) in
      value (settings w') = Math_min 100 (Math_max 0 v)
      /\ renders w' = renders w ++ [0]
      /\ (can_render w ->
          fst (incrementProgress v w) = Normal tt
          /\ valueInput w' =
             match valueInput w with
             | Some _ => Some (Math_min 100 (Math_max 0 v))
             | None => None
             end)).
Proof.
  split; intros H.
  - unfold incrementProgress. cbv beta iota delta [bind gets settings_value].
    rewrite (lt_100_false _ H). reflexivity.
  - intros w'. subst w'.
    unfold incrementProgress. cbv beta iota delta [bind gets settings_value].
    rewrite (lt_100_true _ H).
    cbv beta iota delta [bind gets modify settings_value].
    destruct (setValue_run v (set_settings (set_value v) w)) as (c & cx & E & Hc).
    rewrite E. split; [|split].
    + destruct c; [|reflexivity]. cbv beta iota.
      match goal with |- context [match ?x with Some _ => _ | None => _ end] =>
        destruct x end; reflexivity.
    + destruct c; [|break_world w; reflexivity]. cbv beta iota.
      match goal with |- context [match ?x with Some _ => _ | None => _ end] =>
        destruct x end; break_world w; reflexivity.
    + intros Hr. rewrite Hc
        by (revert Hr; apply can_render_settings; break_world w; reflexivity).
      break_world w. destruct vi; split; reflexivity.
Qed.

Lemma incrementProgress_stops_at_100_witness :
  incrementProgress 40 (snd (setValue 100 demo)) = (Normal tt, snd (setValue 100 demo))
  /\ value (settings (snd (incrementProgress 40 demo))) = 40
  /\ valueInput (snd (incrementProgress 40 demo)) = Some 40.
Proof.
  assert (H1 : 100 <= value (settings (snd (setValue 100 demo))))
    by (vm_compute; discriminate).
  assert (H2 : value (settings demo) < 100) by reflexivity.
  assert (H3 : can_render demo) by (right; reflexivity).
  destruct (incrementProgress_stops_at_100 40 (snd (setValue 100 demo))) as [A _].
  destruct (incrementProgress_stops_at_100 40 demo) as [_ B].
  destruct (B H2) as (B1 & _ & B2). destruct (B2 H3) as [_ B3].
  split; [exact (A H1)|]. split; [exact B1|exact B3].
Defined.

(** ** destroy and what follows it *)

(** X4.  [destroy()] on a widget that holds its context returns normally
    with the resize listener removed, the canvas cleared (also when the
    widget is hidden) and detached from its parent, [settings.ctx] and
    [this.canvas] set to [null] and the rotation at 0.  The size of the
    canvas, the value and the [animate], [hidden] and [animationFrame]
    settings stay as they were. *)
Theorem destroy_tears_down (w : World) :
  ctx (settings w) = object ->
  let w' := snd (destroy w) in
  fst (destroy w) = Normal tt
  /\ resizeListener w' = false
  /\ parentNode (canvas w') = false
  /\ ctx (settings w') = null
  /\ this_canvas w' = null
  /\ rotation (settings w') = 0
  /\ (exists ps, painted (context (canvas w')) =
                 ps ++ [Cleared 0 0 (width (canvas w)) (height (canvas w))])
  /\ (hidden (settings w) = true ->
      painted (context (canvas w')) =
      painted (context (canvas w)) ++
      [Cleared 0 0 (width (canvas w)) (height (canvas w))])
  /\ width (canvas w') = width (canvas w)
  /\ height (canvas w') = height (canvas w)
  /\ value (settings w') = value (settings w)
  /\ animate (settings w') = animate (settings w)
  /\ hidden (settings w') = hidden (settings w)
  /\ animationFrame (settings w') = animationFrame (settings w).
Proof.
  intros Hc w'. subst w'.
  split_world w; try discriminate; try destruct h as [|k]; destruct cpar;
    crunch; cbv beta iota delta [negb N.eqb];
    repeat match goal with |- _ /\ _ => split end;
    try reflexivity; try (intros; discriminate); try (eexists; reflexivity).
Qed.

Lemma destroy_tears_down_witness :
  ctx (settings demo_spinning) = object
  /\ fst (destroy demo_spinning) = Normal tt
  /\ resizeListener (snd (destroy demo_spinning)) = false
  /\ parentNode (canvas (snd (destroy demo_spinning))) = false
  /\ ctx (settings (snd (destroy demo_spinning))) = null
  /\ animate (settings (snd (destroy demo_spinning))) = true.
Proof.
  destruct (destroy_tears_down demo_spinning eq_refl)
    as (D1 & D2 & D3 & D4 & _ & _ & _ & _ & _ & _ & _ & D5 & _).
  split; [reflexivity|]. split; [exact D1|]. split; [exact D2|].
  split; [exact D3|]. split; [exact D4|exact D5].
Defined.

Lemma destroy_tears_down_facts (w : World) :
  ctx (settings w) = object ->
  ctx (settings (snd (destroy w))) = null
  /\ resizeListener (snd (destroy w)) = false
  /\ parentNode (canvas (snd (destroy w))) = false.
Proof.
  intros Hc.
  split_world w; try discriminate; try destruct h as [|k]; destruct cpar;
    crunch; cbv beta iota delta [negb N.eqb]; repeat split.
Qed.

(** A widget without its context, listener and parent keeps none of them and
    gets nothing painted, whatever is called. *)
Lemma released_step (c : Call) (w : World) :
  ctx (settings w) = null -> resizeListener w = false ->
  ctx (settings (step c w)) = null
  /\ resizeListener (step c w) = false
  /\ context (canvas (step c w)) = context (canvas w)
  /\ parentNode (canvas (step c w)) = parentNode (canvas w).
Proof.
  intros Hc Hl.
  destruct c as [v|b|b| |v| |k|q];
    split_world w; try discriminate; cbn in Hl; subst;
    try destruct b; destruct cpar; destruct vi;
    crunch; case_split; repeat split.
Qed.

(** X5.  After a [destroy()] that returned, no sequence of method calls,
    animation frames and resize events brings the widget back: the context
    stays [null], the listener stays removed, the canvas stays detached and
    nothing more is painted on it; a resize event changes nothing but the
    width of the viewport. *)
Theorem destroyed_for_good (w : World) (cs : list Call) :
  fst (destroy w) = Normal tt ->
  let w1 := snd (destroy w) in
  ctx (settings (run cs w1)) = null
  /\ resizeListener (run cs w1) = false
  /\ parentNode (canvas (run cs w1)) = false
  /\ context (canvas (run cs w1)) = context (canvas w1)
  /\ (forall q, step (window_resize q) (run cs w1) = set_innerWidth q (run cs w1)).
Proof.
  intros Hn w1.
  destruct (destroy_tears_down_facts w (destroy_normal_ctx w Hn)) as (Hc & Hl & Hp).
  fold w1 in Hc, Hl, Hp. clearbody w1. clear Hn.
  revert w1 Hc Hl Hp. induction cs as [|c cs IH]; intros w1 Hc Hl Hp.
  - cbn [run fold_left]. repeat split; try assumption.
    intros q. unfold step, perform, resize. cbv beta iota delta [bind gets modify].
    replace (resizeListener (set_innerWidth q w1)) with false
      by (break_world w1; symmetry; exact Hl).
    reflexivity.
  - cbn [run fold_left].
    destruct (released_step c w1 Hc Hl) as (Hc' & Hl' & Hx' & Hp').
    rewrite Hp in Hp'.
    destruct (IH (step c w1) Hc' Hl' Hp') as (I1 & I2 & I3 & I4 & I5).
    repeat split; try assumption. rewrite <- Hx'. exact I4.
Qed.

Lemma destroyed_for_good_witness :
  fst (destroy demo) = Normal tt
  /\ ctx (settings (run [call_setValue 50; window_resize 500; call_setAnimate true]
                        (snd (destroy demo)))) = null
  /\ context (canvas (run [call_setValue 50; window_resize 500; call_setAnimate true]
                         (snd (destroy demo)))) =
     context (canvas (snd (destroy demo))).
Proof.
  assert (H : fst (destroy demo) = Normal tt) by (vm_compute; reflexivity).
  destruct (destroyed_for_good demo
              [call_setValue 50; window_resize 500; call_setAnimate true] H)
    as (D1 & _ & _ & D2 & _).
  split; [exact H|]. split; [exact D1|exact D2].
Defined.

(** X6.  On a widget whose context is gone and which is not hidden, every
    method that draws throws a [TypeError] after it has changed the settings
    or the canvas: [setValue] has stored the clamped value, [setCanvasSize] has
    resized the canvas (to whole pixels), [setAnimate(true)] has stored the flag and advanced
    the rotation but schedules no frame.  While such a widget is hidden the
    same methods return normally; [destroy] throws in both cases and
    [setHidden] in neither. *)
Theorem methods_throw_without_context (v : Q) (w : World) :
  ctx (settings w) = null ->
  (hidden (settings w) = false ->
     fst (setValue v w) = Throw TypeError
     /\ value (settings (snd (setValue v w))) = Math_min 100 (Math_max 0 v)
     /\ fst (setCanvasSize w) = Throw TypeError
     /\ width (canvas (snd (setCanvasSize w))) =
        to_unsigned_long (Math_min (innerWidth w * 0.8) 200)
     /\ fst (setAnimate true w) = Throw TypeError
     /\ animate (settings (snd (setAnimate true w))) = true
     /\ rotation (settings (snd (setAnimate true w))) = rotation (settings w) + 0.02
     /\ frames (snd (setAnimate true w)) = frames w
     /\ fst (setAnimate false w) = Throw TypeError)
  /\ (hidden (settings w) = true ->
     fst (setValue v w) = Normal tt
     /\ fst (setCanvasSize w) = Normal tt
     /\ fst (setAnimate true w) = Normal tt
     /\ fst (setAnimate false w) = Normal tt)
  /\ fst (destroy w) = Throw TypeError
  /\ (forall b, fst (setHidden b w) = Normal tt).
Proof.
  intros Hc.
  split; [|split; [|split]].
  - intros Hh. split_world w; try discriminate; try destruct h as [|k];
      crunch; cbv beta iota delta [negb N.eqb]; repeat split.
  - intros Hh. split_world w; try discriminate; try destruct h as [|k];
      crunch; cbv beta iota delta [negb N.eqb]; repeat split.
  - split_world w; try discriminate; try destruct h as [|k];
      crunch; cbv beta iota delta [negb N.eqb]; reflexivity.
  - intros b. reflexivity.
Qed.

Lemma methods_throw_without_context_witness :
  ctx (settings demo_destroyed) = null
  /\ hidden (settings demo_destroyed) = false
  /\ fst (setValue 150 demo_destroyed) = Throw TypeError
  /\ value (settings (snd (setValue 150 demo_destroyed))) = 100
  /\ fst (destroy demo_destroyed) = Throw TypeError.
Proof.
  destruct (methods_throw_without_context 150 demo_destroyed eq_refl)
    as (A & _ & B & _).
  destruct (A eq_refl) as (A1 & A2 & _).
  split; [reflexivity|]. split; [reflexivity|]. split; [exact A1|].
  split; [exact A2|exact B].
Defined.

(** X7.  Hiding does not pause the loop: a scheduled tick of a hidden widget
    returns normally, with or without the context, adds 0.02 to the rotation
    and schedules and remembers the next frame, and leaves the canvas
    untouched. *)
Theorem hidden_widget_keeps_ticking (w : World) (h : N) :
  hidden (settings w) = true -> In h (frames w) ->
  let w' := snd (run_frame h w) in
  fst (run_frame h w) = Normal tt
  /\ rotation (settings w') = rotation (settings w) + 0.02
  /\ frames w' = filter (fun k => negb (N.eqb k h)) (frames w) ++ [nextFrame w]
  /\ animationFrame (settings w') = Some (nextFrame w)
  /\ renders w' = renders w ++ [rotation (settings w) + 0.02]
  /\ canvas w' = canvas w.
Proof.
  intros Hh Hin w'. subst w'. rewrite (run_frame_due h w Hin).
  split_world w; try discriminate; crunch; repeat split.
Qed.

Lemma hidden_widget_keeps_ticking_witness :
  hidden (settings (step (call_setHidden true) demo_spinning)) = true
  /\ In 1%N (frames (step (call_setHidden true) demo_spinning))
  /\ frames (snd (run_frame 1 (step (call_setHidden true) demo_spinning))) = [2%N]
  /\ canvas (snd (run_frame 1 (step (call_setHidden true) demo_spinning))) =
     canvas (step (call_setHidden true) demo_spinning).
Proof.
  assert (Hh : hidden (settings (step (call_setHidden true) demo_spinning)) = true)
    by reflexivity.
  assert (Hin : In 1%N (frames (step (call_setHidden true) demo_spinning)))
    by (left; reflexivity).
  destruct (hidden_widget_keeps_ticking _ 1 Hh Hin) as (_ & _ & T1 & _ & _ & T2).
  split; [exact Hh|]. split; [exact Hin|]. split; [exact T1|exact T2].
Defined.

(** X8.  Showing the widget again does not redraw it: after
    [setHidden(true); setValue(v); setHidden(false)] the stored value is [v]
    clamped, but nothing was painted, so the canvas still shows what it showed
    before. *)
Theorem unhiding_does_not_redraw (v : Q) (w : World) :
  let w' := run [call_setHidden true; call_setValue v; call_setHidden false] w in
  value (settings w') = Math_min 100 (Math_max 0 v)
  /\ hidden (settings w') = false
  /\ visibility (canvas w') = "visible"%string
  /\ context (canvas w') = context (canvas w)
  /\ renders w' = renders w ++ [0].
Proof.
  cbv zeta. cbn [run fold_left]. break_world w. crunch. repeat split.
Qed.

(** X9.  A second [setAnimate(false)] changes no setting and cancels nothing
    more: the handle of the cancelled frame stays in
    [settings.animationFrame], and cancelling it again has no effect.  The
    call only draws once more. *)
Theorem setAnimate_false_twice (w : World) :
  let w1 := snd (setAnimate false w) in
  let w2 := snd (setAnimate false w1) in
  settings w2 = settings w1
  /\ animationFrame (settings w1) = animationFrame (settings w)
  /\ frames w2 = frames w1
  /\ nextFrame w2 = nextFrame w1
  /\ renders w2 = renders w1 ++ [0]
  /\ fst (setAnimate false w1) = fst (setAnimate false w).
Proof.
  cbv zeta.
  split_world w; try destruct h as [|k];
    crunch; cbv beta iota delta [negb N.eqb]; rewrite ?filter_twice; repeat split.
Qed.

(** ** The size of the canvas *)

Lemma step_canvas_size (c : Call) (w : World) :
  (width (canvas (step c w)) = width (canvas w)
   /\ height (canvas (step c w)) = height (canvas w))
  \/ (exists size, size <= 200
        /\ width (canvas (step c w)) = size /\ height (canvas (step c w)) = size).
Proof.
  assert (Hs : forall iw, to_unsigned_long (Math_min (iw * 0.8) 200) <= 200)
    by (intros; apply to_unsigned_long_le_200, Q.le_min_r).
  destruct c as [v|b|b| |v| |k|q];
    try (left; split_world w; try destruct b; destruct cpar; destruct vi;
         crunch; case_split; split; reflexivity).
  - right. exists (to_unsigned_long (Math_min (innerWidth w * 0.8) 200)).
    split; [apply Hs|].
    unfold step, perform.
    destruct (setCanvasSize_run w) as (c & cx & E & _). rewrite E.
    break_world w. split; reflexivity.
  - unfold step, perform, resize. cbv beta iota delta [bind gets modify].
    destruct (resizeListener (set_innerWidth q w)).
    + right. exists (to_unsigned_long (Math_min (q * 0.8) 200)). split; [apply Hs|].
      destruct (setCanvasSize_run (set_innerWidth q w)) as (c & cx & E & _).
      rewrite E. break_world w. split; reflexivity.
    + left. break_world w. split; reflexivity.
Qed.

Lemma constructor_facts (id : string) (o : Options) (p : Page) (w : World) :
  constructor id o p = Normal w ->
  frames w = []
  /\ ctx (settings w) = match o_ctx o with Some None => null | _ => object end
  /\ value (settings w) = merge 0 (o_value o)
  /\ width (canvas w) = to_unsigned_long (Math_min (page_innerWidth p * 0.8) 200)
  /\ height (canvas w) = to_unsigned_long (Math_min (page_innerWidth p * 0.8) 200).
Proof.
  unfold constructor.
  destruct (getElementById id p) as [el|]; [|discriminate].
  match goal with |- context [setCanvasSize ?w0] =>
    destruct (setCanvasSize_run w0) as (c & cx & E & _); rewrite E end.
  destruct c; [|discriminate]. intros H. inversion H. repeat split.
Qed.

(** X10.  In every state a constructed widget can reach the canvas is a
    square of edge at most 200: only [setCanvasSize] writes its size, and it
    writes both dimensions. *)
Theorem canvas_stays_square (id : string) (o : Options) (p : Page) (w : World) :
  Reachable id o p w ->
  width (canvas w) = height (canvas w) /\ width (canvas w) <= 200.
Proof.
  intros Hr. induction Hr as [w Hc|w c Hr IH].
  - destruct (constructor_facts _ _ _ _ Hc) as (_ & _ & _ & Hw & Hh).
    rewrite Hw, Hh. split; [reflexivity|apply to_unsigned_long_le_200, Q.le_min_r].
  - destruct (step_canvas_size c w) as [[Ew Eh]|(size & Hs & Ew & Eh)].
    + rewrite Ew, Eh. exact IH.
    + rewrite Ew, Eh. split; [reflexivity|exact Hs].
Qed.

Lemma canvas_stays_square_witness :
  Reachable "progress" no_options (page 1000)
    (step (window_resize 100) (step (call_setAnimate true) demo))
  /\ width (canvas (step (window_resize 100) (step (call_setAnimate true) demo))) =
     height (canvas (step (window_resize 100) (step (call_setAnimate true) demo))).
Proof.
  assert (Hr : Reachable "progress" no_options (page 1000)
                 (step (window_resize 100) (step (call_setAnimate true) demo)))
    by (apply reach_step, reach_step, reach_new, constructor_demo).
  split; [exact Hr|].
  exact (proj1 (canvas_stays_square _ _ _ _ Hr)).
Defined.

(** ** Starting the loop *)

(** X11.  [setAnimate(true)] on a widget that can render stores the flag and
    runs the first tick at once: the rotation grows by 0.02, [draw] is called
    with the new rotation, one more frame is scheduled and its handle
    remembered. *)
Theorem setAnimate_true_runs_first_tick (w : World) :
  can_render w ->
  let w' := snd (setAnimate true w) in
  fst (setAnimate true w) = Normal tt
  /\ animate (settings w') = true
  /\ rotation (settings w') = rotation (settings w) + 0.02
  /\ renders w' = renders w ++ [rotation (settings w) + 0.02]
  /\ frames w' = frames w ++ [nextFrame w]
  /\ nextFrame w' = (nextFrame w + 1)%N
  /\ animationFrame (settings w') = Some (nextFrame w)
  /\ (hidden (settings w) = false ->
      painted (context (canvas w')) =
      painted (context (canvas w)) ++
      gauge (width (canvas w)) (height (canvas w)) (value (settings w))
            (rotation (settings w) + 0.02)).
Proof.
  intros [Hh|Hc] w'; subst w'.
  - split_world w; try discriminate; crunch;
      repeat match goal with |- _ /\ _ => split end;
      try reflexivity; intros; discriminate.
  - split_world w; try discriminate; crunch;
      repeat match goal with |- _ /\ _ => split end;
      try reflexivity; try (intros; discriminate);
      intros _; rewrite <- ?app_assoc; reflexivity.
Qed.

Lemma setAnimate_true_runs_first_tick_witness :
  can_render demo
  /\ frames (snd (setAnimate true demo)) = [1%N]
  /\ rotation (settings (snd (setAnimate true demo))) = 0 + 0.02
  /\ animationFrame (settings (snd (setAnimate true demo))) = Some 1%N.
Proof.
  assert (Hr : can_render demo) by (right; reflexivity).
  destruct (setAnimate_true_runs_first_tick demo Hr) as (_ & _ & T1 & _ & T2 & _ & T3 & _).
  split; [exact Hr|]. split; [exact T2|]. split; [exact T1|exact T3].
Defined.

(** X12.  [setAnimate(true)] followed by [setAnimate(false)], on a widget that
    can render and has no frame scheduled, leaves no frame scheduled: the one
    frame the start scheduled is cancelled.  The rotation is 0 afterwards
    whatever it was, the value is untouched, [draw] was called twice, and
    [settings.animationFrame] keeps the handle of the cancelled frame. *)
Theorem start_then_stop (w : World) :
  can_render w -> frames w = [] -> nextFrame w <> 0%N ->
  let w' := run [call_setAnimate true; call_setAnimate false] w in
  frames w' = []
  /\ rotation (settings w') = 0
  /\ animate (settings w') = false
  /\ value (settings w') = value (settings w)
  /\ animationFrame (settings w') = Some (nextFrame w)
  /\ renders w' = renders w ++ [rotation (settings w) + 0.02; 0].
Proof.
  intros Hr Hf Hn w'. subst w'. cbn [run fold_left].
  assert (E : (nextFrame w =? 0)%N = false) by (apply N.eqb_neq; exact Hn).
  destruct Hr as [Hh|Hc];
    split_world w; try discriminate; cbn in Hf, E; subst; crunch;
    rewrite E; cbv beta iota delta [negb]; cbn [filter app];
    rewrite N.eqb_refl; cbn [negb]; rewrite <- ?app_assoc; repeat split.
Qed.

Lemma start_then_stop_witness :
  can_render demo /\ frames demo = [] /\ nextFrame demo <> 0%N
  /\ frames (run [call_setAnimate true; call_setAnimate false] demo) = []
  /\ rotation (settings (run [call_setAnimate true; call_setAnimate false] demo)) = 0.
Proof.
  assert (Hr : can_render demo) by (right; reflexivity).
  assert (Hn : nextFrame demo <> 0%N) by discriminate.
  destruct (start_then_stop demo Hr eq_refl Hn) as (S1 & S2 & _).
  split; [exact Hr|]. split; [reflexivity|]. split; [exact Hn|].
  split; [exact S1|exact S2].
Defined.

(** ** The angle after many ticks *)



(** ** One loop when the flag is toggled *)

Lemma other_calls_keep_flag (c : Call) (w : World) :
  (forall b, c <> call_setAnimate b) ->
  animate (settings (step c w)) = animate (settings w)
  /\ (frames w = [] -> frames (step c w) = []).
Proof.
  intros Hc.
  destruct c as [v|b|b| |v| |k|q]; try (exfalso; apply (Hc b); reflexivity);
    split_world w; try destruct b; destruct cpar; destruct vi; destruct rl;
    crunch; case_split; (split; [reflexivity|]); cbn; intros Hf; subst;
    try reflexivity; try discriminate.
Qed.

Lemma setAnimate_true_flag (w : World) :
  animate (settings (step (call_setAnimate true) w)) = true.
Proof. split_world w; crunch; reflexivity. Qed.

Lemma setAnimate_false_flag (w : World) :
  animate (settings (step (call_setAnimate false) w)) = false.
Proof.
  split_world w; try destruct h as [|k]; crunch;
    cbv beta iota delta [negb N.eqb]; reflexivity.
Qed.

Lemma loop_follows_flag_step (c : Call) (w : World) :
  LoopFollowsFlag w ->
  match c with
  | call_setAnimate b => negb (Bool.eqb b (animate (settings w)))
  | _ => true
  end = true ->
  LoopFollowsFlag (step c w).
Proof.
  intros [HS Hf] Hflip.
  assert (Hre : restarts c w = false).
  { unfold restarts. destruct c as [v|b|b| |v| |k|q]; try reflexivity.
    destruct b; [|reflexivity].
    destruct (animate (settings w)); [discriminate|].
    rewrite (Hf eq_refl). reflexivity. }
  split; [apply single_loop_step; assumption|].
  destruct c as [v|b|b| |v| |k|q];
    try (intros Ha;
         match goal with |- frames (step ?c w) = [] =>
           assert (Hk : forall b, c <> call_setAnimate b) by (intros; discriminate);
           destruct (other_calls_keep_flag c w Hk) as [Ea Ef] end;
         rewrite Ea in Ha; exact (Ef (Hf Ha))).
  destruct b; intros Ha.
  - rewrite setAnimate_true_flag in Ha. discriminate.
  - unfold step, perform.
    apply (stopAnimation_loop (set_settings (set_animate false) w)).
    break_world w. exact HS.
Qed.

Lemma loop_follows_flag_run (cs : list Call) : forall w : World,
  LoopFollowsFlag w -> flips cs w = true -> LoopFollowsFlag (run cs w).
Proof.
  induction cs as [|c cs IH]; intros w HJ Hfl; [exact HJ|].
  cbn [flips] in Hfl. apply andb_true_iff in Hfl. destruct Hfl as [Hc Hfl].
  cbn [run fold_left]. apply IH; [apply loop_follows_flag_step; assumption|exact Hfl].
Qed.

(** X14.  When every call of [setAnimate] passes a flag other than the one
    stored in [settings.animate], at most one frame is scheduled in every
    state the widget reaches, the widget remembers its handle, and no frame
    is scheduled while the flag is [false]. *)
Theorem toggled_animation_has_one_loop
  (id : string) (o : Options) (p : Page) (w : World) (cs : list Call) :
  page_nextFrame p <> 0%N -> constructor id o p = Normal w ->
  flips cs w = true ->
  (List.length (frames (run cs w)) <= 1)%nat
  /\ (forall h, In h (frames (run cs w)) ->
                animationFrame (settings (run cs w)) = Some h)
  /\ (animate (settings (run cs w)) = false -> frames (run cs w) = []).
Proof.
  intros Hn Hc Hfl.
  assert (HJ : LoopFollowsFlag w).
  { split; [exact (constructor_single_loop id o p w Hn Hc)|].
    intros _. exact (proj1 (constructor_facts _ _ _ _ Hc)). }
  destruct (loop_follows_flag_run cs w HJ Hfl) as [HS Hf].
  split; [exact (single_loop_at_most_one _ HS)|]. split; [|exact Hf].
  destruct HS as [_ [E|(h' & _ & E & Ha)]]; intros h Hin; rewrite E in Hin.
  - destruct Hin.
  - destruct Hin as [<-|[]]. exact Ha.
Qed.

Lemma toggled_animation_has_one_loop_witness :
  page_nextFrame (page 1000) <> 0%N
  /\ constructor "progress" no_options (page 1000) = Normal demo
  /\ flips [call_setAnimate true; frame_due 1; call_setAnimate false;
            call_setAnimate true] demo = true
  /\ (List.length
        (frames (run [call_setAnimate true; frame_due 1; call_setAnimate false;
                      call_setAnimate true] demo)) <= 1)%nat.
Proof.
  assert (Hn : page_nextFrame (page 1000) <> 0%N) by discriminate.
  assert (Hfl : flips [call_setAnimate true; frame_due 1; call_setAnimate false;
                       call_setAnimate true] demo = true)
    by (vm_compute; reflexivity).
  split; [exact Hn|]. split; [exact constructor_demo|]. split; [exact Hfl|].
  exact (proj1 (toggled_animation_has_one_loop _ _ _ _ _ Hn constructor_demo Hfl)).
Defined.

Import App.

(** ** The controls of the page *)

Lemma digits_only_twice (s : string) : digits_only (digits_only s) = digits_only s.
Proof.
  induction s as [|c s IH]; [reflexivity|].
  cbn [digits_only]. destruct (is_digit c) eqn:E; [|exact IH].
  cbn [digits_only]. rewrite E, IH. reflexivity.
Qed.

(** Clamping picks 0, 100 or its argument. *)
Lemma clamp_choice (q : Q) :
  Math_min 100 (Math_max 0 q) = 0
  \/ Math_min 100 (Math_max 0 q) = 100
  \/ (Math_min 100 (Math_max 0 q) = q /\ 0 < q < 100).
Proof.
  unfold Math_min, Math_max, Qmin, Qmax, GenericMinMax.gmin, GenericMinMax.gmax.
  destruct (0 ?= q) eqn:E0.
  - left. reflexivity.
  - destruct (100 ?= q) eqn:E1.
    + right. left. reflexivity.
    + right. left. reflexivity.
    + right. right. split; [reflexivity|].
      apply Qlt_alt in E0. apply Qgt_alt in E1. split; assumption.
  - left. reflexivity.
Qed.

Lemma clamp_twice (q : Q) :
  Math_min 100 (Math_max 0 (Math_min 100 (Math_max 0 q))) = Math_min 100 (Math_max 0 q).
Proof.
  unfold Math_min, Math_max, Qmin, Qmax, GenericMinMax.gmin, GenericMinMax.gmax.
  destruct (0 ?= q) eqn:E0; try reflexivity.
  destruct (100 ?= q) eqn:E1; try reflexivity.
  rewrite E0, E1. reflexivity.
Qed.

Lemma clamp_integer (z : Z) :
  is_integer (Math_min 100 (Math_max 0 (inject_Z z))) = true.
Proof.
  destruct (clamp_choice (inject_Z z)) as [E|[E|[E _]]]; rewrite E.
  - reflexivity.
  - reflexivity.
  - unfold is_integer, inject_Z. cbn. rewrite Z.mod_1_r. reflexivity.
Qed.

Lemma input_event_steps (text : string) (w : World) :
  let v := Math_min 100 (Math_max 0 (Number (digits_only text))) in
  input_event text w =
  step (call_setValue v) (step (call_setValue v) (set_valueInput (Some v) w)).
Proof.
  cbv zeta. unfold input_event, on_value_input, on_value_input_again.
  cbv beta iota zeta delta [bind modify].
  set (v := Math_min 100 (Math_max 0 (Number (digits_only text)))).
  assert (E : valueInput (snd (setValue v (set_valueInput (Some v) w))) = Some v).
  { destruct (setValue_run v (set_valueInput (Some v) w)) as (c & cx & E & _).
    rewrite E. reflexivity. }
  cbn [snd]. rewrite E. cbv beta iota. subst v. rewrite clamp_twice. reflexivity.
Qed.

(** X15.  Whatever text the user leaves in the field 'value', the two
    listeners of its 'input' event store the number spelled by the decimal
    digits of the text (0 when it has none), clamped to the range from 0 to
    100: an integer.  Every other character, a sign or a decimal point
    included, is ignored.  The field is overwritten with the stored value and
    [draw] is called twice. *)
Theorem input_event_stores_digits_clamped (text : string) (w : World) :
  let v := Math_min 100 (Math_max 0 (Number (digits_only text))) in
  let w' := input_event text w in
  value (settings w') = v
  /\ is_integer v = true
  /\ in_range v
  /\ (digits_only text = EmptyString -> v = 0)
  /\ valueInput w' = Some v
  /\ renders w' = renders w ++ [0; 0]
  /\ input_event (digits_only text) w = w'.
Proof.
  intros v w'. subst w'.
  assert (Hi : input_event (digits_only text) w = input_event text w).
  { rewrite !input_event_steps. cbv zeta. rewrite digits_only_twice. reflexivity. }
  rewrite (input_event_steps text w). fold v. unfold step, perform.
  destruct (setValue_run v (set_valueInput (Some v) w)) as (c1 & cx1 & E1 & _).
  rewrite E1. cbn [snd].
  match goal with |- context [setValue v ?w1] =>
    destruct (setValue_run v w1) as (c2 & cx2 & E2 & _); rewrite E2 end.
  cbn [snd].
  repeat match goal with |- _ /\ _ => split end.
  - exact (clamp_twice _).
  - apply clamp_integer.
  - apply clamp_in_range.
  - intros E. unfold v. rewrite E. reflexivity.
  - reflexivity.
  - break_world w. cbn. rewrite <- app_assoc. reflexivity.
  - rewrite Hi, (input_event_steps text w). fold v. unfold step, perform.
    rewrite E1. cbn [snd]. rewrite E2. reflexivity.
Qed.

Lemma input_event_stores_digits_clamped_witness :
  value (settings (input_event "-5" demo)) = 5
  /\ value (settings (input_event "1.5" demo)) = 15
  /\ value (settings (input_event "abc" demo)) = 0
  /\ value (settings (input_event "250" demo)) = 100.
Proof.
  split; [|split; [|split]].
  - exact (proj1 (input_event_stores_digits_clamped "-5" demo)).
  - exact (proj1 (input_event_stores_digits_clamped "1.5" demo)).
  - exact (proj1 (input_event_stores_digits_clamped "abc" demo)).
  - exact (proj1 (input_event_stores_digits_clamped "250" demo)).
Defined.

Lemma step_keeps_ctx_and_value (c : Call) (w : World) :
  (c <> call_destroy -> ctx (settings (step c w)) = ctx (settings w))
  /\ ((forall v, c <> call_setValue v) -> (forall v, c <> call_incrementProgress v) ->
      value (settings (step c w)) = value (settings w)).
Proof.
  destruct c as [v|b|b| |v| |k|q].
  - split; [intros _|intros H; exfalso; apply (H v); reflexivity].
    unfold step, perform. destruct (setValue_run v w) as (c & cx & E & _).
    rewrite E. break_world w. reflexivity.
  - destruct b; split_world w; crunch; case_split; split; reflexivity.
  - break_world w. split; reflexivity.
  - split_world w; crunch; split; reflexivity.
  - split; [intros _|intros _ H; exfalso; apply (H v); reflexivity].
    split_world w; destruct vi; crunch; case_split; reflexivity.
  - split; [intros H; exfalso; apply H; reflexivity|intros _ _].
    split_world w; destruct cpar; crunch; case_split; reflexivity.
  - split_world w; crunch; case_split; split; reflexivity.
  - split_world w; destruct rl; crunch; split; reflexivity.
Qed.

Lemma setValue_step_value (v : Q) (w : World) :
  value (settings (step (call_setValue v) w)) = Math_min 100 (Math_max 0 v).
Proof.
  unfold step, perform. destruct (setValue_run v w) as (c & cx & E & _).
  rewrite E. reflexivity.
Qed.

Lemma handle_value_sound (e : Event) (w : World) :
  ValueSound w -> ValueSound (handle e w).
Proof.
  intros (Hi & Hr & Hc).
  assert (Hq : forall c, c <> call_destroy ->
                 (forall v, c <> call_setValue v) ->
                 (forall v, c <> call_incrementProgress v) ->
                 ValueSound (step c w)).
  { intros c H1 H2 H3. destruct (step_keeps_ctx_and_value c w) as [Ec Ev].
    unfold ValueSound. rewrite (Ec H1), (Ev H2 H3). split; [|split]; assumption. }
  destruct e as [text|b|b|h|q]; cbn [handle].
  - rewrite input_event_steps. cbv zeta.
    set (v := Math_min 100 (Math_max 0 (Number (digits_only text)))).
    unfold ValueSound. rewrite setValue_step_value.
    destruct (step_keeps_ctx_and_value (call_setValue v)
                (step (call_setValue v) (set_valueInput (Some v) w))) as [E1 _].
    destruct (step_keeps_ctx_and_value (call_setValue v)
                (set_valueInput (Some v) w)) as [E2 _].
    rewrite E1, E2 by discriminate. subst v. rewrite clamp_twice.
    split; [apply clamp_integer|]. split; [apply clamp_in_range|].
    break_world w. exact Hc.
  - apply (Hq (call_setAnimate b)); intros; discriminate.
  - apply (Hq (call_setHidden b)); intros; discriminate.
  - apply (Hq (frame_due h)); intros; discriminate.
  - apply (Hq (window_resize q)); intros; discriminate.
Qed.

Lemma handle_loop_follows_flag (e : Event) (w : World) :
  LoopFollowsFlag w ->
  match e with
  | animate_change checked => negb (Bool.eqb checked (animate (settings w)))
  | _ => true
  end = true ->
  LoopFollowsFlag (handle e w).
Proof.
  intros HJ Hfl. destruct e as [text|b|b|h|q]; cbn [handle].
  - rewrite input_event_steps. cbv zeta.
    apply loop_follows_flag_step; [|reflexivity].
    apply loop_follows_flag_step; [|reflexivity].
    break_world w. exact HJ.
  - apply (loop_follows_flag_step (call_setAnimate b)); assumption.
  - apply (loop_follows_flag_step (call_setHidden b)); [assumption|reflexivity].
  - apply (loop_follows_flag_step (frame_due h)); [assumption|reflexivity].
  - apply (loop_follows_flag_step (window_resize q)); [assumption|reflexivity].
Qed.

(** X16.  A widget built as the page builds it and driven by the controls of
    the page only keeps an integer between 0 and 100 as its value and keeps
    its context, whatever the user types.  When the animate checkbox reports
    a changed state on each of its events, at most one frame is scheduled at
    any time. *)
Theorem page_controls_keep_widget_sound (p : Page) (w : World) (es : list Event) :
  page_nextFrame p <> 0%N ->
  constructor "progress" no_options p = Normal w ->
  let w' := handle_all es w in
  is_integer (value (settings w')) = true
  /\ in_range (value (settings w'))
  /\ ctx (settings w') = object
  /\ (toggled es w = true -> (List.length (frames w') <= 1)%nat).
Proof.
  intros Hn Hc w'. subst w'.
  destruct (constructor_facts _ _ _ _ Hc) as (Hf & Hx & Hv & _).
  assert (HV : ValueSound w).
  { unfold ValueSound. rewrite Hv, Hx. cbn [merge o_value no_options].
    split; [reflexivity|]. split; [|reflexivity].
    split; [apply Qle_refl|discriminate]. }
  assert (HJ : LoopFollowsFlag w).
  { split; [exact (constructor_single_loop _ _ _ _ Hn Hc)|intros _; exact Hf]. }
  clear Hn Hc Hf Hx Hv. revert w HV HJ.
  induction es as [|e es IH]; intros w HV HJ.
  - cbn [handle_all fold_left]. destruct HV as (H1 & H2 & H3).
    split; [exact H1|]. split; [exact H2|]. split; [exact H3|].
    intros _. apply single_loop_at_most_one, HJ.
  - cbn [handle_all fold_left].
    pose proof (handle_value_sound e w HV) as HV'.
    destruct (match e with
              | animate_change checked => negb (Bool.eqb checked (animate (settings w)))
              | _ => true
              end) eqn:Hfl.
    + destruct (IH (handle e w) HV' (handle_loop_follows_flag e w HJ Hfl))
        as (I1 & I2 & I3 & I4).
      split; [exact I1|]. split; [exact I2|]. split; [exact I3|].
      intros Ht. apply I4. cbn [toggled] in Ht. rewrite Hfl in Ht. exact Ht.
    + assert (HV2 : forall es' w2, ValueSound w2 -> ValueSound (handle_all es' w2)).
      { clear. induction es' as [|e' es' IH']; intros w2 H2; [exact H2|].
        cbn [handle_all fold_left]. apply IH', handle_value_sound, H2. }
      destruct (HV2 es (handle e w) HV') as (I1 & I2 & I3).
      split; [exact I1|]. split; [exact I2|]. split; [exact I3|].
      intros Ht. cbn [toggled] in Ht. rewrite Hfl in Ht. discriminate.
Qed.

Lemma page_controls_keep_widget_sound_witness :
  page_nextFrame (page 1000) <> 0%N
  /\ constructor "progress" no_options (page 1000) = Normal demo
  /\ toggled [animate_change true; input "12.5%"; frame 1; hidden_change true;
              animate_change false] demo = true
  /\ value (settings (handle_all [animate_change true; input "12.5%"; frame 1;
                                  hidden_change true; animate_change false] demo)) = 100
  /\ (List.length
        (frames (handle_all [animate_change true; input "12.5%"; frame 1;
                             hidden_change true; animate_change false] demo)) <= 1)%nat.
Proof.
  assert (Hn : page_nextFrame (page 1000) <> 0%N) by discriminate.
  assert (Ht : toggled [animate_change true; input "12.5%"; frame 1; hidden_change true;
                        animate_change false] demo = true) by (vm_compute; reflexivity).
  destruct (page_controls_keep_widget_sound (page 1000) demo
              [animate_change true; input "12.5%"; frame 1; hidden_change true;
               animate_change false] Hn constructor_demo) as (_ & _ & _ & P).
  split; [exact Hn|]. split; [exact constructor_demo|]. split; [exact Ht|].
  split; [vm_compute; reflexivity|exact (P Ht)].
Defined.
